(** * DeepNetworks: adversarial training orchestration

    A shallow embedding of the training orchestration of
    [deep_networks/models/gan.py], [discogan.py] and [iwacgan.py]:
    the step scheduler of the improved Wasserstein ACGAN, the resumable
    epoch/batch loop shared by the three [train] methods, and the loss
    assembly of [_build_losses].

    Python integers are unbounded, so they are embedded as [Z]; Python's
    [//] and [%] round towards minus infinity, exactly as [Z.div] and
    [Z.modulo] do, except that a zero divisor raises [ZeroDivisionError],
    which the embedding makes explicit. *)

From Stdlib Require Import ZArith List Bool Lia String SpecFloat Sorted.
Import ListNotations.

Local Open Scope Z_scope.

(** ** Python arithmetic and exceptions *)

Inductive exn : Type :=
| ZeroDivisionError.

Inductive res (A : Type) : Type :=
| Ok (a : A)
| Raise (e : exn).

Arguments Ok {A} a.
Arguments Raise {A} e.

Definition res_bind {A B : Type} (m : res A) (f : A -> res B) : res B :=
  match m with
  | Ok a => f a
  | Raise e => Raise e
  end.

Declare Scope res_scope.
Delimit Scope res_scope with res.
Notation "x <- m ;; k" := (res_bind m (fun x => k))
  (at level 61, m at next level, right associativity) : res_scope.

(** [a % b] *)
Definition py_mod (a b : Z) : res Z :=
  if b =? 0 then Raise ZeroDivisionError else Ok (a mod b).

(** [a // b] *)
Definition py_floordiv (a b : Z) : res Z :=
  if b =? 0 then Raise ZeroDivisionError else Ok (a / b).

(** ** The step scheduler of [WACGAN.train] *)

Module Scheduler.

(** The four scheduling attributes set by [WACGAN.__init__]
    (the source spells the third one [d_intial_high_rounds]). *)
Record config : Type := Config {
  d_iters : Z;
  d_high_iters : Z;
  d_intial_high_rounds : Z;
  d_step_high_rounds : Z
}.

(** What one batch iteration runs: [train_D()] or [train_D_G()]. *)
Inductive action : Type :=
| TrainD
| TrainDG.

Definition action_eqb (a b : action) : bool :=
  match a, b with
  | TrainD, TrainD | TrainDG, TrainDG => true
  | _, _ => false
  end.

Record thresholds : Type := Thresholds {
  initial_steps : Z;
  passing_steps : Z;
  block_steps : Z
}.

Local Open Scope res_scope.

(** Lines 315-322: the three thresholds computed once before the epoch
    loop. *)
Definition compute_thresholds (c : config) : res thresholds :=
  let initial_steps := d_high_iters c * d_intial_high_rounds c in
  r <- py_mod (d_intial_high_rounds c) (d_step_high_rounds c) ;;
  q <- py_mod (d_step_high_rounds c - r) (d_step_high_rounds c) ;;
  let passing_steps := initial_steps + q * d_iters c in
  let block_steps := d_high_iters c + (d_step_high_rounds c - 1) * d_iters c in
  Ok (Thresholds initial_steps passing_steps block_steps).

(** Lines 371-391: the branch taken by one batch iteration at global step
    [step].  The [or] of the last branch is short-circuit: its modulus is
    only evaluated when [(block_step + 1) < d_high_iters] is false. *)
Definition decide (c : config) (t : thresholds) (step : Z) : res action :=
  if step <? initial_steps t then
    m <- py_mod (step + 1) (d_high_iters c) ;;
    if negb (m =? 0) then Ok TrainD else Ok TrainDG
  else if step <? passing_steps t then
    passing_step <- py_mod (step - initial_steps t) (d_iters c) ;;
    m <- py_mod (passing_step + 1) (d_iters c) ;;
    if negb (m =? 0) then Ok TrainD else Ok TrainDG
  else
    block_step <- py_mod (step - passing_steps t) (block_steps t) ;;
    if block_step + 1 <? d_high_iters c then Ok TrainD
    else
      m <- py_mod (block_step + 1 - d_high_iters c) (d_iters c) ;;
      if negb (m =? 0) then Ok TrainD else Ok TrainDG.

(** Thresholds and branch together: the decision as a function of the
    configuration and the global step. *)
Definition step_decision (c : config) (step : Z) : res action :=
  t <- compute_thresholds c ;;
  decide c t step.

(** The decision rule in the words of the specification (section 4.3),
    to be compared with [step_decision]. *)
Definition spec_initial_steps (c : config) : Z :=
  d_high_iters c * d_intial_high_rounds c.

Definition spec_passing_steps (c : config) : Z :=
  spec_initial_steps c
  + ((d_step_high_rounds c
      - (d_intial_high_rounds c mod d_step_high_rounds c))
     mod d_step_high_rounds c) * d_iters c.

Definition spec_block_steps (c : config) : Z :=
  d_high_iters c + (d_step_high_rounds c - 1) * d_iters c.

Definition spec_update_generator (c : config) (s : Z) : bool :=
  if s <? spec_initial_steps c then
    (s + 1) mod d_high_iters c =? 0
  else if s <? spec_passing_steps c then
    (((s - spec_initial_steps c) mod d_iters c) + 1) mod d_iters c =? 0
  else
    let b := (s - spec_passing_steps c) mod spec_block_steps c in
    (d_high_iters c <=? b + 1) && ((b + 1 - d_high_iters c) mod d_iters c =? 0).

(** Configurations on which no modulus of the scheduler has a zero
    divisor. *)
Definition schedulable (c : config) : bool :=
  (1 <=? d_iters c) && (1 <=? d_step_high_rounds c)
  && ((1 <=? d_high_iters c)
      || ((d_high_iters c =? 0) && (2 <=? d_step_high_rounds c))).

End Scheduler.

(** ** The training loop shared by the three [train] methods *)

Module Loop.

Import Scheduler.

(** Observable effects of a run, in the order they happen. *)
Inductive event : Type :=
| EvEpoch (epoch step start_idx : Z) (* entry of an epoch iteration *)
| EvUpdate (a : action) (step : Z)   (* [sess.run] of the optimizers *)
| EvSummary (step : Z)               (* [writer.add_summary(_, step)] *)
| EvSave (step : Z)                  (* [self.save(checkpoint_dir, step)] *)
| EvSample (step : Z).               (* [sample_fn(self, step)] *)

(** The mutable locals of [train]: the global step and, per epoch, how
    many values the discriminator-side and generator-side
    [IncrementalAverage] accumulators have received. *)
Record loop_state : Type := LoopState {
  step : Z;
  d_seen : Z;
  g_seen : Z
}.

(** Effects: the trace written so far, then an exception or a value with
    the new state. *)
Definition M (A : Type) : Type :=
  loop_state -> list event * res (A * loop_state).

Definition ret {A : Type} (a : A) : M A :=
  fun st => ([], Ok (a, st)).

Definition bind {A B : Type} (m : M A) (f : A -> M B) : M B :=
  fun st =>
    match m st with
    | (tr, Ok (a, st')) =>
        match f a st' with
        | (tr', r) => (tr ++ tr', r)
        end
    | (tr, Raise e) => (tr, Raise e)
    end.

Declare Scope loop_scope.
Delimit Scope loop_scope with loop.
Notation "x <- m ;; k" := (bind m (fun x => k))
  (at level 61, m at next level, right associativity) : loop_scope.
Notation "m ;;; k" := (bind m (fun _ => k))
  (at level 61, right associativity) : loop_scope.

Definition emit (e : event) : M unit :=
  fun st => ([e], Ok (tt, st)).

Definition get_step : M Z :=
  fun st => ([], Ok (step st, st)).

Definition set_step (s : Z) : M unit :=
  fun st => ([], Ok (tt, LoopState s (d_seen st) (g_seen st))).

Definition lift {A : Type} (r : res A) : M A :=
  fun st =>
    match r with
    | Ok a => ([], Ok (a, st))
    | Raise e => ([], Raise e)
    end.

Definition when (b : bool) (m : M unit) : M unit :=
  if b then m else ret tt.

(** [epoch_*_loss = IncrementalAverage()] at the top of an epoch. *)
Definition reset_metrics : M unit :=
  fun st => ([], Ok (tt, LoopState (step st) 0 0)).

(** [epoch_d_*.add(_)] and [epoch_g_*.add(_)]. *)
Definition add_d_metrics : M unit :=
  fun st => ([], Ok (tt, LoopState (step st) (d_seen st + 1) (g_seen st))).

Definition add_g_metrics : M unit :=
  fun st => ([], Ok (tt, LoopState (step st) (d_seen st) (g_seen st + 1))).

(** [for x in l: body(x)] *)
Fixpoint for_each {A : Type} (l : list A) (body : A -> M unit) : M unit :=
  match l with
  | [] => ret tt
  | x :: l' => bind (body x) (fun _ => for_each l' body)
  end.

(** [range(lo, hi)] *)
Definition py_range (lo hi : Z) : list Z :=
  map (fun i => lo + Z.of_nat i) (seq 0 (Z.to_nat (hi - lo))).

(** [sample_step]: an integer stride, or a collection of step numbers;
    [None] has no samples at all. *)
Inductive sample_spec : Type :=
| SampleNever
| SampleEvery (stride : Z)
| SampleAt (steps : list Z).

(** The keyword arguments of [train]. [sample_fn] records whether a
    callback was passed; [save_step] is an integer, [0] standing for any
    falsy value. *)
Record train_args : Type := TrainArgs {
  num_epochs : Z;
  resume : bool;
  resume_step : option Z;
  checkpoint_dir : option string;
  save_step : Z;
  sample_step : sample_spec;
  sample_fn : bool;
  log_dir : option string
}.

(** The same call with another [resume] flag. *)
Definition with_resume (b : bool) (a : train_args) : train_args :=
  TrainArgs (num_epochs a) b (resume_step a) (checkpoint_dir a)
    (save_step a) (sample_step a) (sample_fn a) (log_dir a).

(** Truth value of [checkpoint_dir]: [None] and the empty string are
    false. *)
Definition dir_given (d : option string) : option string :=
  match d with
  | Some EmptyString => None
  | Some s => Some s
  | None => None
  end.

Definition is_some {A : Type} (o : option A) : bool :=
  match o with
  | Some _ => true
  | None => false
  end.

(** [self.writer] is a [FileWriter] exactly when [log_dir is not None]. *)
Definition writer_attached (a : train_args) : bool :=
  is_some (log_dir a).

(** Truth value of [sample_step]. *)
Definition sample_step_truthy (s : sample_spec) : bool :=
  match s with
  | SampleNever => false
  | SampleEvery n => negb (n =? 0)
  | SampleAt l => match l with [] => false | _ :: _ => true end
  end.

Local Open Scope loop_scope.

(** The condition of the [# Sample] statement, evaluated left to right
    with short-circuit [and]/[or]. *)
Definition sample_due (a : train_args) (s : Z) : M bool :=
  if sample_fn a && sample_step_truthy (sample_step a) then
    match sample_step a with
    | SampleEvery n =>
        m <- lift (py_mod s n) ;;
        ret (m =? 0)
    | SampleAt l => ret (existsb (Z.eqb s) l)
    | SampleNever => ret false
    end
  else ret false.

(** The condition of the [# Save checkpoint] statement. *)
Definition save_due (a : train_args) (s : Z) : M bool :=
  if is_some (dir_given (checkpoint_dir a)) && negb (save_step a =? 0) then
    m <- lift (py_mod s (save_step a)) ;;
    ret (m =? 0)
  else ret false.

(** The tail of every batch iteration, from the summary to the sample:
    [summary_str] tells whether the update returned a summary. *)
Definition after_update (a : train_args) (summary_str : bool) : M unit :=
  s <- get_step ;;
  when (writer_attached a && summary_str) (emit (EvSummary s)) ;;;
  set_step (s + 1) ;;;
  s <- get_step ;;
  sv <- save_due a s ;;
  when sv (emit (EvSave s)) ;;;
  sm <- sample_due a s ;;
  when sm (emit (EvSample s)).

(** [gan.py] 521-543 and [discogan.py] 445-467: both optimizers run in
    one [sess.run], which also returns the merged summary. *)
Definition joint_batch (a : train_args) (idx : Z) : M unit :=
  s <- get_step ;;
  emit (EvUpdate TrainDG s) ;;;
  add_d_metrics ;;;
  add_g_metrics ;;;
  after_update a true.

(** [iwacgan.py] 330-349: [train_D] returns [None], [train_D_G] the
    summary. *)
Definition train_D : M bool :=
  s <- get_step ;;
  emit (EvUpdate TrainD s) ;;;
  add_d_metrics ;;;
  ret false.

Definition train_D_G : M bool :=
  s <- get_step ;;
  emit (EvUpdate TrainDG s) ;;;
  add_d_metrics ;;;
  add_g_metrics ;;;
  ret true.

(** [iwacgan.py] 369-407. *)
Definition wacgan_batch (c : config) (t : thresholds) (a : train_args)
    (idx : Z) : M unit :=
  s <- get_step ;;
  act <- lift (decide c t s) ;;
  summary_str <- match act with
                 | TrainD => train_D
                 | TrainDG => train_D_G
                 end ;;
  after_update a summary_str.

(** One iteration of [for epoch in range(start_epoch, num_epochs)].
    [_trange] of the base class is taken to be [range] with a progress
    bar. *)
Definition run_epoch (num_batches : Z) (body : Z -> M unit) (epoch : Z)
    : M unit :=
  s <- get_step ;;
  start_idx <- lift (py_mod s num_batches) ;;
  reset_metrics ;;;
  emit (EvEpoch epoch s start_idx) ;;;
  for_each (py_range start_idx num_batches) body.

Definition run_epochs (num_batches : Z) (body : Z -> M unit)
    (start_epoch stop_epoch : Z) : M unit :=
  for_each (py_range start_epoch stop_epoch) (run_epoch num_batches body).

(** [# Save final checkpoint] *)
Definition final_save (a : train_args) : M unit :=
  s <- get_step ;;
  when (is_some (dir_given (checkpoint_dir a))) (emit (EvSave s)).

Section Train.

(** [self.load(checkpoint_dir, resume_step)] of the base class: a success
    flag and the restored step. *)
Variable load : string -> option Z -> bool * Z.

(** The model attributes [num_examples] and [batch_size]. *)
Variables num_examples batch_size : Z.

(** From [num_batches = ...] to the chosen [start_epoch]: the number of
    batches, the initial step and the first epoch. *)
Definition prologue (a : train_args) : res (Z * Z * Z) :=
  (num_batches <- py_floordiv num_examples batch_size ;;
   let loaded :=
     if resume a then
       match dir_given (checkpoint_dir a) with
       | Some d => load d (resume_step a)
       | None => (false, 0)
       end
     else (false, 0) in
   if fst loaded then
     start_epoch <- py_floordiv (snd loaded) num_batches ;;
     Ok (num_batches, snd loaded, start_epoch)
   else Ok (num_batches, 0, 0))%res.

Definition start_state (s : Z) : loop_state := LoopState s 0 0.

(** What a call of [train] does: the trace and how it ended. *)
Definition run_from {A : Type} (r : res A) (k : A -> M unit)
    : list event * res (unit * loop_state) :=
  match r with
  | Ok x => k x (start_state 0)
  | Raise e => ([], Raise e)
  end.

(** [GAN.train] *)
Definition gan_train (a : train_args) : list event * res (unit * loop_state) :=
  run_from (prologue a) (fun '(num_batches, s, start_epoch) =>
    set_step s ;;;
    run_epochs num_batches (joint_batch a) start_epoch (num_epochs a) ;;;
    final_save a).

(** [DiscoGAN.train]: the same loop, and nothing after it. *)
Definition discogan_train (a : train_args)
    : list event * res (unit * loop_state) :=
  run_from (prologue a) (fun '(num_batches, s, start_epoch) =>
    set_step s ;;;
    run_epochs num_batches (joint_batch a) start_epoch (num_epochs a)).

(** [WACGAN.train] *)
Definition wacgan_train (c : config) (a : train_args)
    : list event * res (unit * loop_state) :=
  run_from (prologue a) (fun '(num_batches, s, start_epoch) =>
    set_step s ;;;
    t <- lift (compute_thresholds c) ;;
    run_epochs num_batches (wacgan_batch c t a) start_epoch (num_epochs a) ;;;
    final_save a).

End Train.

(** Projections of a trace. *)
Definition updates (tr : list event) : list (Z * action) :=
  flat_map (fun e => match e with EvUpdate a s => [(s, a)] | _ => [] end) tr.

(** Per epoch entered: the global step at its entry and its
    [start_idx]. *)
Definition epochs (tr : list event) : list (Z * Z) :=
  flat_map (fun e => match e with EvEpoch _ s i => [(s, i)] | _ => [] end) tr.

Definition saves (tr : list event) : list Z :=
  flat_map (fun e => match e with EvSave s => [s] | _ => [] end) tr.

Definition summaries (tr : list event) : list Z :=
  flat_map (fun e => match e with EvSummary s => [s] | _ => [] end) tr.

Definition samples (tr : list event) : list Z :=
  flat_map (fun e => match e with EvSample s => [s] | _ => [] end) tr.

End Loop.

(** ** The batch iteration in the words of the specification *)

Module LoopSpec.

Import Scheduler Loop.

(** "conditionally checkpoint ([step mod save_step == 0])", for a given
    checkpoint directory and a stride that is not zero. *)
Definition save_cond (a : train_args) (s : Z) : bool :=
  is_some (dir_given (checkpoint_dir a))
  && negb (save_step a =? 0) && (s mod save_step a =? 0).

(** "conditionally sample ([step mod sample_step == 0], or [step] is a
    member of an explicit step set)", for a given callback. *)
Definition sample_cond (a : train_args) (s : Z) : bool :=
  sample_fn a
  && match sample_step a with
     | SampleNever => false
     | SampleEvery n => negb (n =? 0) && (s mod n =? 0)
     | SampleAt l => existsb (Z.eqb s) l
     end.

(** The events after the update of the batch iteration entered at global
    step [s]: the summary when one is [emitted], then the checkpoint and
    the sample, both decided on the incremented step. *)
Definition after_events (a : train_args) (emitted : bool) (s : Z)
    : list event :=
  (if emitted then [EvSummary s] else [])
  ++ (if save_cond a (s + 1) then [EvSave (s + 1)] else [])
  ++ (if sample_cond a (s + 1) then [EvSample (s + 1)] else []).

(** The batch iteration as section 4.4 words it: a summary whenever a
    writer is attached. *)
Definition claimed_batch_events (a : train_args) (act : action) (s : Z)
    : list event :=
  EvUpdate act s :: after_events a (writer_attached a) s.

(** The batch iteration of the source: [train_D] returns no summary, so
    a discriminator-only step writes none. *)
Definition batch_events (a : train_args) (act : action) (s : Z)
    : list event :=
  EvUpdate act s
  :: after_events a
       (writer_attached a
        && match act with TrainDG => true | TrainD => false end) s.

(** The state after a batch iteration that ran [act]. *)
Definition batch_state (act : action) (st : loop_state) : loop_state :=
  LoopState (step st + 1) (d_seen st + 1)
    (g_seen st + match act with TrainDG => 1 | TrainD => 0 end).

(** The action the rule of section 4.3 prescribes at global step [s]. *)
Definition spec_action (c : config) (s : Z) : action :=
  if spec_update_generator c s then TrainDG else TrainD.

(** "On success, restore [GlobalStep] ...; on failure, [step = 0]": the
    step a call of [train] starts from. *)
Definition resumed_step (load : string -> option Z -> bool * Z)
    (a : train_args) : Z :=
  if resume a then
    match dir_given (checkpoint_dir a) with
    | Some d => if fst (load d (resume_step a))
                then snd (load d (resume_step a)) else 0
    | None => 0
    end
  else 0.

(** An epoch entry (global step, [start_idx]) on an epoch boundary: the
    step is a multiple of [num_batches] and the epoch starts at batch 0. *)
Definition aligned (num_batches : Z) (p : Z * Z) : Prop :=
  fst p mod num_batches = 0 /\ snd p = 0.

End LoopSpec.

(** ** Loss assembly

    Tensor numerics belong to the numeric backend.  The losses are
    therefore assembled over an arbitrary scalar type with the backend's
    operations; Python floats and tensor entries share that type.  A
    rank-1 tensor is a list over the batch, a rank-2 tensor a list of
    rows, one row per sample. *)

Module Losses.

Class Scalar (F : Type) : Type := {
  zero : F;
  one : F;
  add : F -> F -> F;
  sub : F -> F -> F;
  mul : F -> F -> F;
  div : F -> F -> F;
  neg : F -> F;
  sqrt : F -> F;
  of_Z : Z -> F;                       (* conversion of a Python [int] *)
  gtb : F -> F -> bool                 (* [>] *)
}.

Section Ops.

Context {F : Type} `{Scalar F}.

(** The two cross entropies of the backend, which the losses only
    compose: [tf.nn.sigmoid_cross_entropy_with_logits] per entry (logit,
    label) and [tf.nn.softmax_cross_entropy_with_logits] per row
    (logits, labels). *)
Variable sigmoid_cross_entropy : F -> F -> F.
Variable softmax_cross_entropy : list F -> list F -> F.

Definition vec : Type := list F.
Definition mat : Type := list (list F).

(** [tf.square] *)
Definition square (x : F) : F := mul x x.

(** [tf.reduce_sum] of a rank-1 tensor *)
Definition reduce_sum (v : vec) : F := fold_left add v zero.

(** [tf.reduce_mean] of a rank-1 tensor *)
Definition reduce_mean (v : vec) : F :=
  div (reduce_sum v) (of_Z (Z.of_nat (List.length v))).

(** [tf.reduce_sum(_, 1)] of a rank-2 tensor *)
Definition reduce_sum_axis1 (m : mat) : vec := map reduce_sum m.

(** [tf.add_n(ops) if ops else 0.0] *)
Definition reg_loss (ops : list F) : F :=
  match ops with
  | [] => zero
  | x :: l => fold_left add l x
  end.

(** [tf.ones_like] *)
Definition ones_like (v : vec) : vec := map (fun _ => one) v.

(** Entry [j] of the one-hot row of class index [i]. *)
Definition one_hot_entry (i j : Z) : F := if i =? j then one else zero.

(** [tf.one_hot(indices, depth=depth, axis=-1)]: an index outside
    [0 .. depth-1] gives a row of zeros. *)
Definition one_hot (indices : list Z) (depth : Z) : mat :=
  map (fun i => map (one_hot_entry i) (Loop.py_range 0 depth)) indices.

(** Entrywise binary operation on two tensors of one shape. *)
Definition map2 (f : F -> F -> F) (u v : vec) : vec :=
  map (fun p => f (fst p) (snd p)) (combine u v).

(** What a discriminator object exposes. *)
Record discriminator : Type := Discriminator {
  outputs_d : vec;
  activations_d : vec;
  outputs_c : mat;
  activations_c : mat
}.

(** The heads of [BasicDiscriminator]: [fc_d] and [fc_c] are the outputs
    of the last fully connected layers; an activation is applied only to
    the [activations_*] attributes, and only when one is given. *)
Definition discriminator_heads (activation_fn : option (F -> F))
    (class_activation_fn : option (list F -> list F))
    (fc_d : vec) (fc_c : mat) : discriminator :=
  {| outputs_d := fc_d;
     activations_d := match activation_fn with
                      | Some f => map f fc_d
                      | None => fc_d
                      end;
     outputs_c := fc_c;
     activations_c := match class_activation_fn with
                      | Some f => map f fc_c
                      | None => fc_c
                      end |}.

(** *** Vanilla GAN, [gan.py] 409-423 *)

Definition gan_labels_real (d_label_smooth : F) (d_real_outputs_d : vec)
    : vec :=
  if gtb d_label_smooth zero then
    map (fun o => sub o d_label_smooth) (ones_like d_real_outputs_d)
  else ones_like d_real_outputs_d.

Definition gan_d_loss_real (d_label_smooth : F) (d_real_outputs_d : vec)
    : F :=
  reduce_mean
    (map2 sigmoid_cross_entropy d_real_outputs_d
       (gan_labels_real d_label_smooth d_real_outputs_d)).

(** *** DiscoGAN, [discogan.py] 296-317: [labels_real] is built once,
    from the shape of [x_d_real.outputs_d], and used in both
    discriminator scopes. *)

Definition disco_labels_real (d_label_smooth : F) (x_d_real_outputs_d : vec)
    : vec :=
  if gtb d_label_smooth zero then
    map (fun o => sub o d_label_smooth) (ones_like x_d_real_outputs_d)
  else ones_like x_d_real_outputs_d.

Record disco_d_losses : Type := DiscoDLosses {
  disco_labels : vec;
  x_d_loss_real : F;
  y_d_loss_real : F
}.

Definition disco_build_d_losses (d_label_smooth : F)
    (x_d_real_outputs_d y_d_real_outputs_d : vec) : disco_d_losses :=
  let labels_real := disco_labels_real d_label_smooth x_d_real_outputs_d in
  {| disco_labels := labels_real;
     x_d_loss_real :=
       reduce_mean
         (map2 sigmoid_cross_entropy x_d_real_outputs_d labels_real);
     y_d_loss_real :=
       reduce_mean
         (map2 sigmoid_cross_entropy y_d_real_outputs_d labels_real) |}.

(** *** Improved Wasserstein ACGAN *)

(** [iwacgan.py] 147-148: [epsilon] has shape [(batch_size, 1)] and is
    broadcast along each row. *)
Definition interpolate (X G : mat) (epsilon : vec) : mat :=
  map (fun r =>
         let '(x, g, e) := r in
         map2 (fun xi gi => add (mul xi e) (mul gi (sub one e))) x g)
      (combine (combine X G) epsilon).

(** [iwacgan.py] 193-197.  [d_label_smooth / num_classes] divides two
    Python numbers, which raises for a zero [num_classes]. *)
Definition wacgan_labels_c_real (d_label_smooth : F) (num_classes : Z)
    (y : list Z) : res mat :=
  let labels_c_real := one_hot y num_classes in
  if gtb d_label_smooth zero then
    let smooth_pos := sub one d_label_smooth in
    if num_classes =? 0 then Raise ZeroDivisionError
    else
      let smooth_neg := div d_label_smooth (of_Z num_classes) in
      Ok (map (map (fun l => add (mul l smooth_pos) smooth_neg))
            labels_c_real)
  else Ok labels_c_real.

(** [iwacgan.py] 189-191 *)
Definition gradient_penalty (d_lambda : F) (d_grad : mat) : F :=
  mul d_lambda
    (reduce_mean
       (map (fun n => square (sub (sqrt n) one))
            (reduce_sum_axis1 (map (map square) d_grad)))).

(** A discriminator network with shared variables, as the backend sees
    it: its two linear heads as functions of the input batch, and
    [tf.gradients(outputs_d, [input])[0]]. *)
Record critic : Type := Critic {
  fc_d : mat -> vec;
  fc_c : mat -> mat;
  grad_d : mat -> mat
}.

(** The tensors [_build_losses] reads: the discriminator passes on the
    real and the generated batch, the interpolated batch with the
    gradient of [d_hat.outputs_d] with respect to it, the label and
    condition batches and the collected regularization terms. *)
Record wacgan_graph : Type := WacganGraph {
  d_real : discriminator;
  d_fake : discriminator;
  X_hat : mat;
  d_grad : mat;
  y : list Z;
  c : list Z;
  num_classes : Z;
  d_lambda : F;
  d_label_smooth : F;
  g_reg_ops : list F;
  d_reg_ops : list F
}.

Record wacgan_losses : Type := WacganLosses {
  g_loss : F;
  g_reg_loss : F;
  g_c_loss : F;
  g_total_loss : F;
  d_loss_real : F;
  d_loss_fake : F;
  d_loss : F;
  d_grad_loss : F;
  labels_c_real : mat;
  d_c_loss : F;
  d_reg_loss : F;
  d_total_loss : F
}.

(** [WACGAN._build_GAN], [iwacgan.py] 123-157, with the gradient of line
    185: every discriminator pass is built with [activation_fn=None];
    [softmax] is the default [class_activation_fn]. *)
Definition wacgan_build_GAN (D : critic) (softmax : list F -> list F)
    (X G : mat) (epsilon : vec) (y c : list Z) (num_classes : Z)
    (d_lambda d_label_smooth : F) (g_reg_ops d_reg_ops : list F)
    : wacgan_graph :=
  let X_hat := interpolate X G epsilon in
  {| d_real := discriminator_heads None (Some softmax) (fc_d D X) (fc_c D X);
     d_fake := discriminator_heads None (Some softmax) (fc_d D G) (fc_c D G);
     X_hat := X_hat;
     d_grad := grad_d D X_hat;
     y := y;
     c := c;
     num_classes := num_classes;
     d_lambda := d_lambda;
     d_label_smooth := d_label_smooth;
     g_reg_ops := g_reg_ops;
     d_reg_ops := d_reg_ops |}.

(** Row-wise softmax cross entropy followed by the batch mean. *)
Definition mean_softmax_cross_entropy (logits labels : mat) : F :=
  reduce_mean
    (map (fun p => softmax_cross_entropy (fst p) (snd p))
         (combine logits labels)).

(** [WACGAN._build_losses], [iwacgan.py] 159-208 *)
Definition wacgan_build_losses (g : wacgan_graph) : res wacgan_losses :=
  let g_loss := neg (reduce_mean (outputs_d (d_fake g))) in
  let g_reg_loss := reg_loss (g_reg_ops g) in
  let g_c_loss :=
    mean_softmax_cross_entropy (outputs_c (d_fake g))
      (one_hot (c g) (num_classes g)) in
  let g_total_loss := add (add g_loss g_c_loss) g_reg_loss in
  let d_loss_real := reduce_mean (outputs_d (d_real g)) in
  let d_loss_fake := reduce_mean (outputs_d (d_fake g)) in
  let d_loss := sub d_loss_fake d_loss_real in
  let d_grad_loss := gradient_penalty (d_lambda g) (d_grad g) in
  (labels_c_real <-
     wacgan_labels_c_real (d_label_smooth g) (num_classes g) (y g) ;;
   let d_c_loss :=
     mean_softmax_cross_entropy (outputs_c (d_real g)) labels_c_real in
   let d_reg_loss := reg_loss (d_reg_ops g) in
   let d_total_loss :=
     add (add (add d_loss d_c_loss) d_grad_loss) d_reg_loss in
   Ok (WacganLosses g_loss g_reg_loss g_c_loss g_total_loss d_loss_real
         d_loss_fake d_loss d_grad_loss labels_c_real d_c_loss d_reg_loss
         d_total_loss))%res.

End Ops.

End Losses.

(** ** IEEE 754 single precision, the element type of the tensors *)

Module Binary32.

Definition prec : Z := 24.
Definition emax : Z := 128.

Definition float_of_Z (z : Z) : spec_float :=
  binary_normalize prec emax z 0 false.

(** [m * 2 ^ e] *)
Definition float_of_dyadic (m e : Z) : spec_float :=
  binary_normalize prec emax m e false.

#[export] Instance scalar : Losses.Scalar spec_float := {|
  Losses.zero := S754_zero false;
  Losses.one := float_of_Z 1;
  Losses.add := SFadd prec emax;
  Losses.sub := SFsub prec emax;
  Losses.mul := SFmul prec emax;
  Losses.div := SFdiv prec emax;
  Losses.neg := SFopp;
  Losses.sqrt := SFsqrt prec emax;
  Losses.of_Z := float_of_Z;
  Losses.gtb := fun x y => SFltb y x
|}.

Definition quarter : spec_float := float_of_dyadic 1 (-2).
Definition half : spec_float := float_of_dyadic 1 (-1).

(** A critic that scores a sample by its first feature: the gradient of
    its output is the first unit vector, of norm 1, at every point. *)
Definition first_feature_critic : Losses.critic (F := spec_float) :=
  {| Losses.fc_d := map (fun row => hd (S754_zero false) row);
     Losses.fc_c := fun X => X;
     Losses.grad_d :=
       map (fun row =>
              match row with
              | [] => []
              | _ :: r => float_of_Z 1 :: map (fun _ => S754_zero false) r
              end) |}.

(** Two samples of two features, real and generated. *)
Definition real_batch : list (list spec_float) :=
  [[float_of_Z 1; float_of_Z 2]; [float_of_Z 3; float_of_Z 4]].

Definition fake_batch : list (list spec_float) :=
  [[float_of_Z 0; float_of_Z (-1)]; [float_of_Z 5; float_of_Z 2]].

End Binary32.

(** ** Concrete configurations and calls *)

Module Examples.

Import Scheduler Loop.

(** The scenario of section 8: [d_high_iters=5], [d_initial_high_rounds=2],
    [d_step_high_rounds=10], [d_iters=3]. *)
Definition burst_config : config := Config 3 5 2 10.

(** The defaults of [WACGAN.__init__]. *)
Definition default_config : config := Config 5 0 25 500.

(** The defaults, but with a high round at every generator update. *)
Definition every_round_config : config := Config 5 0 25 1.

(** A call of [train] for three epochs with a checkpoint directory, a
    log directory and a sample callback, all strides at their defaults. *)
Definition call : train_args :=
  TrainArgs 3 true None (Some "checkpoints"%string) 500 (SampleEvery 100)
    true (Some "logs"%string).

(** The same call without a sample callback, sampling every step. *)
Definition call_without_sample_fn : train_args :=
  TrainArgs 3 true None (Some "checkpoints"%string) 500 (SampleEvery 1)
    false (Some "logs"%string).

(** The first call, for five epochs. *)
Definition call_five_epochs : train_args :=
  TrainArgs 5 true None (Some "checkpoints"%string) 500 (SampleEvery 100)
    true (Some "logs"%string).

(** A checkpoint directory whose latest checkpoint is at step [s]. *)
Definition load_at (s : Z) : string -> option Z -> bool * Z :=
  fun _ _ => (true, s).

(** A directory without a checkpoint. *)
Definition load_nothing : string -> option Z -> bool * Z :=
  fun _ _ => (false, 0).

End Examples.

(** ** Feature matching, [discogan.py] 495-501 *)

Module FeatureMatching.

Import Losses.

Section Feats.

Context {F : Type} `{Scalar F}.

(** [tf.losses.mean_squared_error(labels, predictions)]: the mean, over
    all entries, of the squared difference, a scalar. *)
Definition mean_squared_error (labels predictions : mat) : F :=
  reduce_mean
    (map2 (fun l p => square (sub p l)) (List.concat labels)
       (List.concat predictions)).

(** [DiscoGAN.feats_loss]: [zip] stops at the shorter list; the
    [tf.reduce_mean] of a scalar is that scalar. *)
Definition feats_loss (real_feats fake_feats : list mat) : F :=
  fold_left
    (fun losses p => add losses (mean_squared_error (fst p) (snd p)))
    (combine real_feats fake_feats) zero.

End Feats.

End FeatureMatching.

(** ** Sampling, [gan.py] 553-570 and [iwacgan.py] 419-441 *)

Module Sampler.

(** What a call of [sess.run] feeds: [is_training], and the latent codes
    and class labels when they replace the sources of the graph. *)
Record feed (L C : Type) : Type := Feed {
  feed_is_training : option bool;
  feed_z : option L;
  feed_c : option C
}.

Arguments Feed {L C} _ _ _.
Arguments feed_is_training {L C} _.
Arguments feed_z {L C} _.
Arguments feed_c {L C} _.

Section Sample.

(** The types of a batch of latent codes and of a batch of labels, and
    the draws of [sample_z] and [sample_c], which are random. *)
Variables L C : Type.
Variable sample_z : Z -> L.
Variable sample_c : Z -> C.

(** [GAN.sample(num_samples=None, z=None)] *)
Definition gan_sample (num_samples : option Z) (z : option L) : feed L C :=
  match z with
  | Some z => Feed (Some false) (Some z) None
  | None =>
      match num_samples with
      | Some n => Feed (Some false) (Some (sample_z n)) None
      | None => Feed (Some false) None None
      end
  end.

(** [WACGAN.sample(num_samples=None, z=None, c=None)] *)
Definition wacgan_sample (num_samples : option Z) (z : option L)
    (c : option C) : feed L C :=
  match z, c with
  | Some z, Some c => Feed (Some false) (Some z) (Some c)
  | _, _ =>
      match num_samples with
      | Some n => Feed (Some false) (Some (sample_z n)) (Some (sample_c n))
      | None => Feed (Some false) None None
      end
  end.

End Sample.

End Sampler.

(** ** The sizes of the convolutional generators

    [gan.py] 157-226 and [discogan.py] 56-85. *)

Module Builders.

Import Loop.

(** [int(math.ceil(a / b))] for a positive [b].  The quotient [a / b] is
    a float; for [a] below [2 ^ 53] in absolute value and [b] a power of
    two, as here, it is the exact quotient, whose ceiling this is. *)
Definition ceil_div (a b : Z) : Z := - ((- a) / b).

(** [max(min_size, int(math.ceil(target / (2**k))))] *)
Definition resize_dim (min_size target k : Z) : Z :=
  Z.max min_size (ceil_div target (2 ^ k)).

(** Height, width and channels of a feature map. *)
Record shape : Type := Shape {
  height : Z;
  width : Z;
  channels : Z
}.

(** [build_resize_conv_generator]: the shape the fully connected layer
    is reshaped to, then the shape after the resize and the convolution
    of every layer; [None] is the failure of [assert num_layers > 1]. *)
Definition resize_conv_generator_shapes (output_shape : Z * Z * Z)
    (min_size dim num_layers : Z) : option (shape * list shape) :=
  if num_layers >? 1 then
    let '(target_h, target_w, target_c) := output_shape in
    let h := resize_dim min_size target_h (num_layers - 1) in
    let w := resize_dim min_size target_w (num_layers - 1) in
    let c := dim * 2 ^ (num_layers - 2) in
    Some
      (Shape h w c,
       map (fun i =>
              let h := resize_dim min_size target_h (num_layers - 2 - i) in
              let w := resize_dim min_size target_w (num_layers - 2 - i) in
              let c := if negb (i =? num_layers - 2)
                       then dim * 2 ^ (num_layers - 3 - i)
                       else target_c in
              Shape h w c)
           (py_range 0 (num_layers - 1)))
  else None.

(** [build_conv_resize_conv_generator]: the sizes [(h, w)] its second
    loop resizes to; [None] is the failure of [assert num_layers > 0]. *)
Definition conv_resize_conv_generator_sizes (output_shape : Z * Z * Z)
    (min_size num_layers : Z) : option (list (Z * Z)) :=
  if num_layers >? 0 then
    let '(target_h, target_w, target_c) := output_shape in
    Some
      (map (fun i =>
              (resize_dim min_size target_h (num_layers - 1 - i),
               resize_dim min_size target_w (num_layers - 1 - i)))
           (py_range 0 num_layers))
  else None.

(** [functools.reduce(operator.mul, output_shape)] of a shape of three
    dimensions. *)
Definition output_size (output_shape : Z * Z * Z) : Z :=
  let '(h, w, c) := output_shape in h * w * c.

(** A size that grows, and at most doubles, from one layer to the
    next. *)
Definition grows (a b : Z) : Prop := a <= b <= 2 * a.

(** A strided convolution of one of the [d_conv] scopes: its number of
    filters, and whether batch normalisation follows it. *)
Record conv_layer : Type := ConvLayer {
  filters : Z;
  batch_norm : bool
}.

(** One iteration of a [d_conv] loop: the layer is appended to the ones
    built so far, then [dim *= 2]. *)
Definition conv_step (st : Z * list conv_layer) (i : Z)
    : Z * list conv_layer :=
  let '(dim, features) := st in
  (dim * 2, features ++ [ConvLayer dim (negb (i =? 0))]).

(** [for i in range(n)] over the [d_conv] scopes, from the first [dim]:
    the [dim] the loop leaves, and the layers in the order built. *)
Definition conv_loop (dim n : Z) : Z * list conv_layer :=
  fold_left conv_step (py_range 0 n) (dim, []).

(** [build_conv_discriminator]: the layers behind [features]; [None] is
    the failure of [assert num_layers > 0]. *)
Definition conv_discriminator_features (dim num_layers : Z)
    : option (list conv_layer) :=
  if num_layers >? 0 then Some (snd (conv_loop dim (num_layers - 1)))
  else None.

(** [build_conv_resize_conv_generator]: its first loop, with the [dim]
    it leaves for the second one; [None] is the failure of
    [assert num_layers > 0]. *)
Definition conv_resize_conv_encoder (dim num_layers : Z)
    : option (Z * list conv_layer) :=
  if num_layers >? 0 then Some (conv_loop dim num_layers) else None.

End Builders.

(** ** Calls of [train] *)

Module Calls.

Import Loop.

(** The same call for another number of epochs. *)
Definition with_num_epochs (n : Z) (a : train_args) : train_args :=
  TrainArgs n (resume a) (resume_step a) (checkpoint_dir a)
    (save_step a) (sample_step a) (sample_fn a) (log_dir a).

(** Whether the call restores a checkpoint: [success] after the
    [if resume and checkpoint_dir] statement. *)
Definition load_succeeds (load : string -> option Z -> bool * Z)
    (a : train_args) : bool :=
  resume a
  && match dir_given (checkpoint_dir a) with
     | Some d => fst (load d (resume_step a))
     | None => false
     end.

End Calls.

(** ** The loop the scheduler stands for

    [iwacgan.py] 351-363: the comment above the batch loop gives the
    loop that the step arithmetic is meant to reproduce "with restore
    capability". *)

Module Reference.

Import Scheduler.

(** One training of a partition. *)
Inductive training : Type :=
| TrainingD
| TrainingG.

(** The trainings of one batch iteration: [train_D] trains the
    discriminator, [train_D_G] the discriminator and the generator. *)
Definition trainings (a : action) : list training :=
  match a with
  | TrainD => [TrainingD]
  | TrainDG => [TrainingD; TrainingG]
  end.

Local Open Scope res_scope.

(** The [d_iters] chosen by the commented loop for one generator
    iteration; the [or] is short-circuit. *)
Definition round_iters (c : config) (gen_iterations : Z) : res Z :=
  if gen_iterations <? d_intial_high_rounds c then Ok (d_high_iters c)
  else
    m <- py_mod gen_iterations (d_step_high_rounds c) ;;
    if m =? 0 then Ok (d_high_iters c) else Ok (d_iters c).

(** [for _ in range(d_iters): train D] *)
Definition train_D_times (d : Z) : list training :=
  repeat TrainingD (Z.to_nat d).

(** The first [n] iterations of the commented [while True] loop, from
    the generator iteration [gen_iterations] on. *)
Fixpoint reference_loop (c : config) (gen_iterations : Z) (n : nat)
    : res (list training) :=
  match n with
  | O => Ok []
  | S n' =>
      d <- round_iters c gen_iterations ;;
      rest <- reference_loop c (gen_iterations + 1) n' ;;
      Ok (train_D_times d ++ TrainingG :: rest)
  end.

(** The decisions of the scheduler on a list of steps, in order. *)
Fixpoint decisions (c : config) (steps : list Z) : res (list action) :=
  match steps with
  | [] => Ok []
  | s :: steps' =>
      a <- step_decision c s ;;
      rest <- decisions c steps' ;;
      Ok (a :: rest)
  end.

(** The number of batch iterations the first [n] generator iterations
    take when every one of them ends in a joint update: the sum of their
    [d_iters]. *)
Fixpoint steps_of_rounds (c : config) (n : nat) : Z :=
  match n with
  | O => 0
  | S n' =>
      steps_of_rounds c n'
      + match round_iters c (Z.of_nat n') with
        | Ok d => d
        | Raise _ => 0
        end
  end.

(** The generator iterations between the initial high rounds and the
    first periodic one: [passing_steps] is [initial_steps] plus that many
    rounds of [d_iters] steps. *)
Definition passing_rounds (c : config) : Z :=
  (d_step_high_rounds c - d_intial_high_rounds c mod d_step_high_rounds c)
  mod d_step_high_rounds c.

(** [round_iters] where its modulus is defined. *)
Definition round_length (c : config) (gen_iterations : Z) : Z :=
  if (gen_iterations <? d_intial_high_rounds c)
     || (gen_iterations mod d_step_high_rounds c =? 0)
  then d_high_iters c else d_iters c.

(** Where a round starts in its block of [d_step_high_rounds] rounds:
    the high round opens the block, the ordinary rounds follow it. *)
Definition block_offset (c : config) (r : Z) : Z :=
  if r =? 0 then 0 else d_high_iters c + (r - 1) * d_iters c.

End Reference.

(** * Properties *)

(** ** Python arithmetic *)

Lemma py_mod_ok (a b : Z) : b <> 0 -> py_mod a b = Ok (a mod b).
Proof.
  intros Hb. unfold py_mod.
  destruct (Z.eqb_spec b 0) as [E | _]; [contradiction | reflexivity].
Qed.

Lemma py_floordiv_ok (a b : Z) : b <> 0 -> py_floordiv a b = Ok (a / b).
Proof.
  intros Hb. unfold py_floordiv.
  destruct (Z.eqb_spec b 0) as [E | _]; [contradiction | reflexivity].
Qed.

(** ** The step scheduler *)

Section SchedulerFacts.

Import Scheduler.

Variable c : config.

Lemma thresholds_ok :
  d_step_high_rounds c <> 0 ->
  compute_thresholds c
  = Ok (Thresholds (spec_initial_steps c) (spec_passing_steps c)
          (spec_block_steps c)).
Proof.
  intros Hr. unfold compute_thresholds.
  rewrite (py_mod_ok _ _ Hr). cbn [res_bind].
  rewrite (py_mod_ok _ _ Hr). reflexivity.
Qed.

Lemma block_steps_pos :
  1 <= d_iters c -> 1 <= d_step_high_rounds c ->
  1 <= d_high_iters c \/ (d_high_iters c = 0 /\ 2 <= d_step_high_rounds c) ->
  1 <= spec_block_steps c.
Proof.
  intros Hi Hr Hh. unfold spec_block_steps. nia.
Qed.

(** On the thresholds of the specification, the branch of the source is
    the rule of the specification whenever no divisor is zero. *)
Lemma decide_spec (s : Z) :
  1 <= d_iters c -> 1 <= spec_block_steps c ->
  (s < spec_initial_steps c -> d_high_iters c <> 0) ->
  decide c (Thresholds (spec_initial_steps c) (spec_passing_steps c)
              (spec_block_steps c)) s
  = Ok (if spec_update_generator c s then TrainDG else TrainD).
Proof.
  intros Hi Hb Hh.
  assert (Hi' : d_iters c <> 0) by lia.
  assert (Hb' : spec_block_steps c <> 0) by lia.
  unfold decide, spec_update_generator.
  cbn [initial_steps passing_steps block_steps].
  destruct (Z.ltb_spec s (spec_initial_steps c)) as [L1 | L1].
  - rewrite (py_mod_ok _ _ (Hh L1)). cbn [res_bind].
    destruct ((s + 1) mod d_high_iters c =? 0); reflexivity.
  - destruct (Z.ltb_spec s (spec_passing_steps c)) as [L2 | L2].
    + rewrite (py_mod_ok _ _ Hi'). cbn [res_bind].
      rewrite (py_mod_ok _ _ Hi'). cbn [res_bind].
      destruct (_ =? 0); reflexivity.
    + rewrite (py_mod_ok _ _ Hb'). cbn [res_bind].
      set (b := (s - spec_passing_steps c) mod spec_block_steps c).
      destruct (Z.ltb_spec (b + 1) (d_high_iters c)) as [L3 | L3].
      * destruct (Z.leb_spec (d_high_iters c) (b + 1)); [lia | reflexivity].
      * destruct (Z.leb_spec (d_high_iters c) (b + 1)); [| lia].
        rewrite (py_mod_ok _ _ Hi'). cbn [res_bind andb].
        destruct (_ =? 0); reflexivity.
Qed.

Lemma schedulable_spec :
  schedulable c = true ->
  1 <= d_iters c /\ 1 <= d_step_high_rounds c
  /\ (1 <= d_high_iters c
      \/ (d_high_iters c = 0 /\ 2 <= d_step_high_rounds c)).
Proof.
  unfold schedulable. intros H.
  apply andb_prop in H as [H H3]. apply andb_prop in H as [H1 H2].
  apply Z.leb_le in H1, H2. repeat split; try assumption.
  apply orb_prop in H3 as [H3 | H3].
  - left. now apply Z.leb_le.
  - right. apply andb_prop in H3 as [H3 H4].
    apply Z.eqb_eq in H3. apply Z.leb_le in H4. now split.
Qed.

Lemma schedulable_decide (s : Z) :
  schedulable c = true -> 0 <= s ->
  compute_thresholds c
  = Ok (Thresholds (spec_initial_steps c) (spec_passing_steps c)
          (spec_block_steps c))
  /\ decide c (Thresholds (spec_initial_steps c) (spec_passing_steps c)
                 (spec_block_steps c)) s
     = Ok (if spec_update_generator c s then TrainDG else TrainD).
Proof.
  intros Hs Hpos. apply schedulable_spec in Hs as (Hi & Hr & Hh).
  split.
  - apply thresholds_ok. lia.
  - apply decide_spec; [assumption | now apply block_steps_pos |].
    intros Hlt. destruct Hh as [Hh | [Hh _]]; [lia |].
    unfold spec_initial_steps in Hlt. rewrite Hh in Hlt. lia.
Qed.

(** Without high iterations the rule is a fixed ratio: a joint update
    closes every run of [d_iters] steps. *)
Lemma no_burst_rule (s : Z) :
  d_high_iters c = 0 -> 1 <= d_iters c -> 2 <= d_step_high_rounds c ->
  0 <= s ->
  spec_update_generator c s = ((s + 1) mod d_iters c =? 0).
Proof.
  intros Hh Hi Hr Hs. unfold spec_update_generator.
  assert (H0 : spec_initial_steps c = 0)
    by (unfold spec_initial_steps; rewrite Hh; lia).
  assert (Hb : spec_block_steps c = d_iters c * (d_step_high_rounds c - 1))
    by (unfold spec_block_steps; rewrite Hh; lia).
  rewrite H0, Hh.
  destruct (Z.ltb_spec s 0) as [L | _]; [lia |].
  destruct (Z.ltb_spec s (spec_passing_steps c)) as [L2 | L2].
  - rewrite Z.sub_0_r, Z.add_mod_idemp_l by lia. reflexivity.
  - set (p := spec_passing_steps c).
    assert (Hp : p = ((d_step_high_rounds c
                       - d_intial_high_rounds c mod d_step_high_rounds c)
                      mod d_step_high_rounds c) * d_iters c)
      by (unfold p, spec_passing_steps; rewrite H0; lia).
    pose proof (Z.mod_pos_bound (s - p) (spec_block_steps c)) as Hm.
    assert (0 < spec_block_steps c) by nia.
    destruct (Z.leb_spec 0 ((s - p) mod spec_block_steps c + 1));
      [| lia].
    cbn [andb]. rewrite Z.sub_0_r, Hb.
    rewrite Z.rem_mul_r by lia.
    rewrite <- Z.add_assoc, (Z.add_comm (d_iters c * _)), Z.add_assoc.
    rewrite Z.mul_comm, Z.mod_add by lia.
    rewrite Z.add_mod_idemp_l by lia.
    replace (s - p + 1) with (s + 1 + (- ((d_step_high_rounds c
                       - d_intial_high_rounds c mod d_step_high_rounds c)
                      mod d_step_high_rounds c)) * d_iters c) by lia.
    rewrite Z.mod_add by lia. reflexivity.
Qed.

End SchedulerFacts.

(** ** The batch iteration *)

Section BatchFacts.

Import Scheduler Loop LoopSpec.

Variable a : train_args.

Lemma save_due_run (s : Z) (st : loop_state) :
  save_due a s st = ([], Ok (save_cond a s, st)).
Proof.
  unfold save_due, save_cond.
  destruct (is_some (dir_given (checkpoint_dir a))); [| reflexivity].
  destruct (Z.eqb_spec (save_step a) 0) as [E | E]; [reflexivity |].
  cbn [andb negb]. unfold bind, lift, ret.
  rewrite (py_mod_ok _ _ E). reflexivity.
Qed.

Lemma sample_due_run (s : Z) (st : loop_state) :
  sample_due a s st = ([], Ok (sample_cond a s, st)).
Proof.
  unfold sample_due, sample_cond.
  destruct (sample_fn a); [| reflexivity]. cbn [andb].
  destruct (sample_step a) as [| n | l]; cbn [sample_step_truthy].
  - reflexivity.
  - destruct (Z.eqb_spec n 0) as [E | E]; [reflexivity |].
    cbn [negb andb]. unfold bind, lift, ret.
    rewrite (py_mod_ok _ _ E). reflexivity.
  - destruct l as [| x l]; reflexivity.
Qed.

Lemma after_update_run (summary_str : bool) (st : loop_state) :
  after_update a summary_str st
  = (after_events a (writer_attached a && summary_str) (step st),
     Ok (tt, LoopState (step st + 1) (d_seen st) (g_seen st))).
Proof.
  unfold after_update, after_events.
  unfold bind at 1. cbn [get_step].
  unfold bind at 1.
  destruct (writer_attached a && summary_str);
    cbn [when emit ret];
    unfold bind at 1; cbn [set_step];
    unfold bind at 1; cbn [get_step step d_seen g_seen];
    unfold bind at 1; rewrite save_due_run;
    unfold bind at 1;
    (destruct (save_cond a (step st + 1)); cbn [when emit ret];
     unfold bind; rewrite sample_due_run;
     destruct (sample_cond a (step st + 1)); reflexivity).
Qed.

Lemma joint_batch_run (idx : Z) (st : loop_state) :
  joint_batch a idx st
  = (batch_events a TrainDG (step st), Ok (tt, batch_state TrainDG st)).
Proof.
  unfold joint_batch, batch_events, batch_state.
  unfold bind at 1. cbn [get_step].
  unfold bind at 1. cbn [emit].
  unfold bind at 1. cbn [add_d_metrics].
  unfold bind at 1. cbn [add_g_metrics].
  rewrite after_update_run. cbn [step d_seen g_seen app].
  rewrite andb_true_r. reflexivity.
Qed.

Lemma wacgan_batch_run (c : config) (t : thresholds) (idx : Z)
    (st : loop_state) (act : action) :
  decide c t (step st) = Ok act ->
  wacgan_batch c t a idx st
  = (batch_events a act (step st), Ok (tt, batch_state act st)).
Proof.
  intros Hd. unfold wacgan_batch, batch_events, batch_state.
  unfold bind at 1. cbn [get_step].
  unfold bind at 1. rewrite Hd. cbn [lift].
  destruct act.
  - unfold bind at 1. unfold train_D.
    unfold bind at 1. cbn [get_step].
    unfold bind at 1. cbn [emit].
    unfold bind at 1. cbn [add_d_metrics ret].
    rewrite after_update_run. cbn [step d_seen g_seen app].
    rewrite andb_false_r, Z.add_0_r. reflexivity.
  - unfold bind at 1. unfold train_D_G.
    unfold bind at 1. cbn [get_step].
    unfold bind at 1. cbn [emit].
    unfold bind at 1. cbn [add_d_metrics].
    unfold bind at 1. cbn [add_g_metrics ret].
    rewrite after_update_run. cbn [step d_seen g_seen app].
    rewrite andb_true_r. reflexivity.
Qed.

Lemma wacgan_batch_raise (c : config) (t : thresholds) (idx : Z)
    (st : loop_state) (e : exn) :
  decide c t (step st) = Raise e ->
  wacgan_batch c t a idx st = ([], Raise e).
Proof.
  intros Hd. unfold wacgan_batch.
  unfold bind at 1. cbn [get_step].
  unfold bind at 1. rewrite Hd. reflexivity.
Qed.

End BatchFacts.

(** ** Ranges and traces *)

Section RangeFacts.

Import Loop.

Lemma py_range_length (lo hi : Z) :
  List.length (py_range lo hi) = Z.to_nat (hi - lo).
Proof. unfold py_range. now rewrite length_map, length_seq. Qed.

Lemma py_range_empty (lo hi : Z) : hi <= lo -> py_range lo hi = [].
Proof.
  intros H. unfold py_range.
  replace (Z.to_nat (hi - lo)) with 0%nat by lia. reflexivity.
Qed.

Lemma py_range_cons (lo hi : Z) :
  lo < hi -> py_range lo hi = lo :: py_range (lo + 1) hi.
Proof.
  intros H. unfold py_range.
  replace (Z.to_nat (hi - lo)) with (S (Z.to_nat (hi - (lo + 1)))) by lia.
  cbn [seq map]. f_equal; [lia |].
  rewrite <- seq_shift, map_map.
  apply map_ext. intros i. lia.
Qed.

Lemma py_range_app (lo mid hi : Z) :
  lo <= mid -> mid <= hi ->
  py_range lo mid ++ py_range mid hi = py_range lo hi.
Proof.
  intros H1 H2.
  remember (Z.to_nat (mid - lo)) as n eqn:En.
  revert lo H1 En. induction n as [| n IH]; intros lo H1 En.
  - assert (lo = mid) by lia. subst lo.
    now rewrite (py_range_empty mid mid) by lia.
  - rewrite (py_range_cons lo mid), (py_range_cons lo hi) by lia.
    cbn [app]. f_equal. apply IH; lia.
Qed.

Lemma py_range_skipn (k hi : Z) :
  0 <= k -> skipn (Z.to_nat k) (py_range 0 hi) = py_range k hi.
Proof.
  intros Hk. destruct (Z.le_gt_cases k hi) as [H | H].
  - rewrite <- (py_range_app 0 k hi) by lia.
    rewrite skipn_app, skipn_all2 by (rewrite py_range_length; lia).
    rewrite py_range_length.
    replace (Z.to_nat k - Z.to_nat (k - 0))%nat with 0%nat by lia.
    reflexivity.
  - rewrite (py_range_empty k hi) by lia.
    apply skipn_all2. rewrite py_range_length. lia.
Qed.

Lemma flat_map_nested {A B C : Type} (f : A -> list B) (g : B -> list C)
    (l : list A) :
  flat_map g (flat_map f l) = flat_map (fun x => flat_map g (f x)) l.
Proof.
  induction l as [| x l IH]; [reflexivity |].
  cbn [flat_map]. now rewrite flat_map_app, IH.
Qed.

Lemma updates_app (t1 t2 : list event) :
  updates (t1 ++ t2) = updates t1 ++ updates t2.
Proof. apply flat_map_app. Qed.

Lemma epochs_app (t1 t2 : list event) :
  epochs (t1 ++ t2) = epochs t1 ++ epochs t2.
Proof. apply flat_map_app. Qed.

Lemma bind_ok {A B : Type} (m : M A) (f : A -> M B) (st st' : loop_state)
    (tr : list event) (x : A) :
  m st = (tr, Ok (x, st')) ->
  bind m f st = (tr ++ fst (f x st'), snd (f x st')).
Proof.
  intros Hm. unfold bind. rewrite Hm. now destruct (f x st').
Qed.

Lemma bind_raise {A B : Type} (m : M A) (f : A -> M B) (st : loop_state)
    (tr : list event) (e : exn) :
  m st = (tr, Raise e) -> bind m f st = (tr, Raise e).
Proof. intros Hm. unfold bind. now rewrite Hm. Qed.

End RangeFacts.

(** ** The epoch loop: where an epoch starts *)

Section EpochEntry.

Import Loop LoopSpec.

Variable num_batches : Z.
Hypothesis num_batches_pos : 0 < num_batches.

(** Any loop body that enters no epoch and, when it returns, has
    incremented the global step once. *)
Variable body : Z -> M unit.
Hypothesis body_no_epoch :
  forall idx st, epochs (fst (body idx st)) = [].
Hypothesis body_step :
  forall idx st u st',
    snd (body idx st) = Ok (u, st') -> step st' = step st + 1.

Lemma batches_entry (l : list Z) (st : loop_state) :
  epochs (fst (for_each l body st)) = []
  /\ forall u st',
       snd (for_each l body st) = Ok (u, st') ->
       step st' = step st + Z.of_nat (List.length l).
Proof.
  revert st. induction l as [| idx l IH]; intros st; cbn [for_each].
  - split; [reflexivity |]. cbn. intros u st' E. inversion E. lia.
  - pose proof (body_no_epoch idx st) as Hn.
    pose proof (body_step idx st) as Hs.
    destruct (body idx st) as [tr [[u1 st1] | e]] eqn:Eb.
    + rewrite (bind_ok _ _ _ _ _ _ Eb). cbn [fst snd] in *.
      destruct (IH st1) as [IH1 IH2].
      rewrite epochs_app, Hn, IH1. split; [reflexivity |].
      intros u st' E. rewrite (IH2 _ _ E), (Hs _ _ eq_refl).
      cbn [List.length]. lia.
    + rewrite (bind_raise _ _ _ _ _ Eb). cbn [fst snd] in *.
      split; [assumption | discriminate].
Qed.

Lemma next_multiple (s : Z) :
  (s + Z.of_nat (Z.to_nat (num_batches - s mod num_batches)))
  mod num_batches = 0.
Proof.
  pose proof (Z.mod_pos_bound s num_batches num_batches_pos) as Hb.
  rewrite Z2Nat.id by lia.
  replace (s + (num_batches - s mod num_batches))
    with (s - s mod num_batches + 1 * num_batches) by lia.
  rewrite Z.mod_add by lia.
  rewrite Zminus_mod, Z.mod_mod, Z.sub_diag by lia.
  now apply Z.mod_0_l; lia.
Qed.

Lemma run_epoch_eq (epoch : Z) (st : loop_state) :
  run_epoch num_batches body epoch st
  = ([EvEpoch epoch (step st) (step st mod num_batches)]
     ++ fst (for_each (py_range (step st mod num_batches) num_batches) body
               (LoopState (step st) 0 0)),
     snd (for_each (py_range (step st mod num_batches) num_batches) body
            (LoopState (step st) 0 0))).
Proof.
  unfold run_epoch.
  unfold bind at 1. cbn [get_step].
  unfold bind at 1. rewrite py_mod_ok by lia. cbn [lift].
  unfold bind at 1. cbn [reset_metrics].
  unfold bind at 1. cbn [emit].
  now destruct (for_each _ body _).
Qed.

(** One epoch: it is entered at [step % num_batches], and leaves the
    step on a multiple of [num_batches]. *)
Lemma run_epoch_entry (epoch : Z) (st : loop_state) :
  epochs (fst (run_epoch num_batches body epoch st))
  = [(step st, step st mod num_batches)]
  /\ forall u st',
       snd (run_epoch num_batches body epoch st) = Ok (u, st') ->
       step st' mod num_batches = 0.
Proof.
  rewrite run_epoch_eq. cbn [fst snd].
  destruct (batches_entry (py_range (step st mod num_batches) num_batches)
              (LoopState (step st) 0 0)) as [H1 H2].
  rewrite epochs_app, H1. split; [reflexivity |].
  intros u st' E. rewrite (H2 _ _ E), py_range_length.
  apply next_multiple.
Qed.

Lemma run_epochs_aligned (l : list Z) (st : loop_state) :
  step st mod num_batches = 0 ->
  Forall (aligned num_batches) (epochs (fst (for_each l (run_epoch num_batches body) st))).
Proof.
  revert st. induction l as [| epoch l IH]; intros st Hst; cbn [for_each].
  - constructor.
  - destruct (run_epoch_entry epoch st) as [H1 H2].
    destruct (run_epoch num_batches body epoch st)
      as [tr [[u1 st1] | e]] eqn:Er.
    + rewrite (bind_ok _ _ _ _ _ _ Er). cbn [fst snd] in *.
      rewrite epochs_app, H1. cbn [app]. constructor.
      * split; [exact Hst | exact Hst].
      * apply IH. now apply (H2 u1 st1).
    + rewrite (bind_raise _ _ _ _ _ Er). cbn [fst snd] in *.
      rewrite H1. constructor; [split; exact Hst | constructor].
Qed.

(** From any starting step, every epoch after the first one is entered
    on a multiple of [num_batches], at batch index [0]. *)
Lemma run_epochs_entry (start_epoch stop_epoch : Z) (st : loop_state) :
  Forall (aligned num_batches)
    (tl (epochs (fst (run_epochs num_batches body start_epoch stop_epoch st)))).
Proof.
  unfold run_epochs.
  destruct (py_range start_epoch stop_epoch) as [| epoch l]; cbn [for_each].
  - constructor.
  - destruct (run_epoch_entry epoch st) as [H1 H2].
    destruct (run_epoch num_batches body epoch st)
      as [tr [[u1 st1] | e]] eqn:Er.
    + rewrite (bind_ok _ _ _ _ _ _ Er). cbn [fst snd] in *.
      rewrite epochs_app, H1. cbn [app tl].
      apply run_epochs_aligned. now apply (H2 u1 st1).
    + rewrite (bind_raise _ _ _ _ _ Er). cbn [fst snd] in *.
      rewrite H1. constructor.
Qed.

End EpochEntry.

(** ** The epoch loop: runs that finish *)

Section EpochTotal.

Import Scheduler Loop.

Variable num_batches : Z.
Hypothesis num_batches_pos : 0 < num_batches.

(** A loop body that, on every step satisfying [P], returns after the
    events [ev step]. *)
Variable P : Z -> Prop.
Hypothesis P_next : forall s, P s -> P (s + 1).

Variable body : Z -> M unit.
Variable ev : Z -> list event.
Variable next : loop_state -> loop_state.

Hypothesis body_run :
  forall idx st, P (step st) -> body idx st = (ev (step st), Ok (tt, next st)).
Hypothesis next_step : forall st, step (next st) = step st + 1.

Lemma batches_total (l : list Z) (st : loop_state) :
  P (step st) ->
  exists st',
    for_each l body st
    = (flat_map ev (py_range (step st) (step st + Z.of_nat (List.length l))),
       Ok (tt, st'))
    /\ step st' = step st + Z.of_nat (List.length l)
    /\ P (step st').
Proof.
  revert st. induction l as [| idx l IH]; intros st HP.
  - exists st. cbn [for_each List.length Z.of_nat].
    rewrite py_range_empty by lia. rewrite Z.add_0_r. now repeat split.
  - cbn [for_each].
    assert (HP' : P (step (next st))) by (rewrite next_step; auto).
    destruct (IH (next st) HP') as (st' & E & Hs & HP'').
    exists st'. rewrite (bind_ok _ _ _ _ _ _ (body_run idx st HP)), E.
    cbn [fst snd]. rewrite next_step in *.
    replace (step st + Z.of_nat (List.length (idx :: l)))
      with (step st + 1 + Z.of_nat (List.length l))
      by (cbn [List.length]; lia).
    rewrite (py_range_cons (step st)) by lia.
    cbn [flat_map]. now repeat split.
Qed.

Lemma next_boundary (s : Z) :
  s + Z.of_nat (Z.to_nat (num_batches - s mod num_batches))
  = (s / num_batches + 1) * num_batches.
Proof.
  pose proof (Z.mod_pos_bound s num_batches num_batches_pos) as Hb.
  pose proof (Z.div_mod s num_batches) as Hd.
  rewrite Z2Nat.id by lia. nia.
Qed.

Lemma run_epoch_total (epoch : Z) (st : loop_state) :
  P (step st) ->
  exists st',
    run_epoch num_batches body epoch st
    = (EvEpoch epoch (step st) (step st mod num_batches)
       :: flat_map ev (py_range (step st) (step st')),
       Ok (tt, st'))
    /\ step st' = (step st / num_batches + 1) * num_batches
    /\ P (step st').
Proof.
  intros HP.
  destruct (batches_total (py_range (step st mod num_batches) num_batches)
              (LoopState (step st) 0 0) HP) as (st' & E & Hs & HP').
  exists st'. rewrite (run_epoch_eq _ num_batches_pos), E.
  cbn [fst snd step app] in *. rewrite Hs.
  rewrite py_range_length, next_boundary in *.
  repeat split. now rewrite <- Hs.
Qed.

(** The events of one kind are those the batch iterations wrote, step
    after step. *)
Lemma run_epochs_total (l : list Z) (st : loop_state) :
  P (step st) ->
  exists tr st',
    for_each l (run_epoch num_batches body) st = (tr, Ok (tt, st'))
    /\ step st'
       = match l with
         | [] => step st
         | _ :: _ =>
             (step st / num_batches + Z.of_nat (List.length l)) * num_batches
         end
    /\ step st <= step st'
    /\ forall (X : Type) (proj : event -> list X),
         (forall e s i, proj (EvEpoch e s i) = []) ->
         flat_map proj tr
         = flat_map (fun s => flat_map proj (ev s))
             (py_range (step st) (step st')).
Proof.
  revert st. induction l as [| epoch l IH]; intros st HP.
  - exists [], st. cbn [for_each]. rewrite py_range_empty by lia.
    repeat split; reflexivity || lia.
  - destruct (run_epoch_total epoch st HP) as (st1 & E1 & Hs1 & HP1).
    destruct (IH st1 HP1) as (tr & st' & E & Hs & Hle & Hu).
    pose proof (Z.mod_pos_bound (step st) num_batches num_batches_pos) as Hb.
    pose proof (Z.div_mod (step st) num_batches) as Hd.
    assert (Hlt : step st < step st1) by nia.
    exists (EvEpoch epoch (step st) (step st mod num_batches)
            :: flat_map ev (py_range (step st) (step st1)) ++ tr), st'.
    cbn [for_each]. rewrite (bind_ok _ _ _ _ _ _ E1), E. cbn [fst snd].
    repeat split.
    + rewrite Hs. destruct l as [| e' l'].
      * rewrite Hs1. cbn [List.length]. lia.
      * rewrite Hs1, Z.div_mul by lia. cbn [List.length]. lia.
    + lia.
    + intros X proj Hp. cbn [flat_map]. rewrite Hp. cbn [app].
      rewrite flat_map_app, (Hu X proj Hp).
      rewrite <- (py_range_app (step st) (step st1) (step st')) by lia.
      rewrite (flat_map_app _ (py_range (step st) (step st1))).
      f_equal. apply flat_map_nested.
Qed.

(** The whole epoch loop of a run that starts at global step [s0], in
    the epoch [s0 // num_batches]: it finishes after one batch iteration
    at each of the steps [s0 .. stop_epoch * num_batches - 1]. *)
Lemma run_epochs_from (s0 stop_epoch d g : Z) :
  P s0 ->
  exists tr st',
    run_epochs num_batches body (s0 / num_batches) stop_epoch
      (LoopState s0 d g)
    = (tr, Ok (tt, st'))
    /\ step st' = Z.max s0 (stop_epoch * num_batches)
    /\ forall (X : Type) (proj : event -> list X),
         (forall e s i, proj (EvEpoch e s i) = []) ->
         flat_map proj tr
         = flat_map (fun s => flat_map proj (ev s))
             (py_range s0 (stop_epoch * num_batches)).
Proof.
  intros HP. unfold run_epochs.
  destruct (run_epochs_total (py_range (s0 / num_batches) stop_epoch)
              (LoopState s0 d g) HP) as (tr & st' & E & Hs & Hle & Hu).
  exists tr, st'. cbn [step] in *.
  pose proof (Z.mod_pos_bound s0 num_batches num_batches_pos) as Hb.
  pose proof (Z.div_mod s0 num_batches) as Hd.
  destruct (Z.le_gt_cases stop_epoch (s0 / num_batches)) as [Hc | Hc].
  - rewrite (py_range_empty (s0 / num_batches) stop_epoch) in Hs by lia.
    assert (stop_epoch * num_batches <= s0) by nia.
    rewrite Hs in Hu. rewrite py_range_empty in Hu by lia.
    rewrite (py_range_empty s0 (stop_epoch * num_batches)) by lia.
    repeat split; [assumption | lia | assumption].
  - rewrite py_range_cons in Hs by lia.
    rewrite <- (py_range_cons (s0 / num_batches) stop_epoch) in Hs by lia.
    rewrite py_range_length in Hs.
    assert (He : step st' = stop_epoch * num_batches).
    { rewrite Hs, Z2Nat.id by lia. f_equal. lia. }
    rewrite He in Hu. repeat split; [assumption | nia | assumption].
Qed.

End EpochTotal.

(** ** Whole runs *)

Section TrainFacts.

Import Scheduler Loop LoopSpec.

Variable load : string -> option Z -> bool * Z.
Variables num_examples batch_size : Z.
Variable a : train_args.

Hypothesis num_batches_pos : 0 < num_examples / batch_size.

Lemma batch_size_nonzero : batch_size <> 0.
Proof.
  intros E. rewrite E in num_batches_pos.
  rewrite Z.div_0_r in num_batches_pos. lia.
Qed.

Lemma prologue_ok :
  prologue load num_examples batch_size a
  = Ok (num_examples / batch_size, resumed_step load a,
        resumed_step load a / (num_examples / batch_size)).
Proof.
  unfold prologue, resumed_step.
  rewrite (py_floordiv_ok _ _ batch_size_nonzero). cbn [res_bind].
  assert (Hz : 0 / (num_examples / batch_size) = 0) by apply Z.div_0_l, Z.neq_sym, Z.lt_neq, num_batches_pos.
  destruct (resume a); cbn [fst snd]; [| now rewrite Hz].
  destruct (dir_given (checkpoint_dir a)) as [d |]; cbn [fst snd];
    [| now rewrite Hz].
  destruct (fst (load d (resume_step a))); [| now rewrite Hz].
  rewrite py_floordiv_ok by lia. reflexivity.
Qed.

Lemma final_save_run (st : loop_state) :
  final_save a st
  = (if is_some (dir_given (checkpoint_dir a)) then [EvSave (step st)] else [],
     Ok (tt, st)).
Proof.
  unfold final_save, bind, get_step.
  now destruct (is_some (dir_given (checkpoint_dir a))).
Qed.

Lemma updates_batch_events (act : action) (s : Z) :
  updates (batch_events a act s) = [(s, act)].
Proof.
  unfold batch_events, after_events, updates.
  cbn [flat_map app]. rewrite flat_map_app, flat_map_app.
  destruct (_ && _), (save_cond _ _), (sample_cond _ _); reflexivity.
Qed.

Lemma saves_batch_events (act : action) (s : Z) :
  saves (batch_events a act s)
  = if save_cond a (s + 1) then [s + 1] else [].
Proof.
  unfold batch_events, after_events, saves.
  cbn [flat_map app]. rewrite flat_map_app, flat_map_app.
  destruct (_ && _), (save_cond _ _), (sample_cond _ _); reflexivity.
Qed.

(** The loop of [GAN.train] and [DiscoGAN.train]. *)
Lemma joint_epochs_total (stop_epoch : Z) :
  exists tr st',
    run_epochs (num_examples / batch_size) (joint_batch a)
      (resumed_step load a / (num_examples / batch_size)) stop_epoch
      (LoopState (resumed_step load a) 0 0)
    = (tr, Ok (tt, st'))
    /\ step st'
       = Z.max (resumed_step load a)
           (stop_epoch * (num_examples / batch_size))
    /\ forall (X : Type) (proj : event -> list X),
         (forall e s i, proj (EvEpoch e s i) = []) ->
         flat_map proj tr
         = flat_map (fun s => flat_map proj (batch_events a TrainDG s))
             (py_range (resumed_step load a)
                (stop_epoch * (num_examples / batch_size))).
Proof.
  apply (run_epochs_from _ num_batches_pos (fun _ => True)
           (fun _ _ => I) (joint_batch a)
           (batch_events a TrainDG) (batch_state TrainDG)).
  - intros idx st _. apply joint_batch_run.
  - reflexivity.
  - exact I.
Qed.

(** The loop of [WACGAN.train] on a schedulable configuration. *)
Lemma wacgan_epochs_total (c : config) (stop_epoch : Z) :
  schedulable c = true -> 0 <= resumed_step load a ->
  exists tr st',
    run_epochs (num_examples / batch_size)
      (wacgan_batch c
         (Thresholds (spec_initial_steps c) (spec_passing_steps c)
            (spec_block_steps c)) a)
      (resumed_step load a / (num_examples / batch_size)) stop_epoch
      (LoopState (resumed_step load a) 0 0)
    = (tr, Ok (tt, st'))
    /\ step st'
       = Z.max (resumed_step load a)
           (stop_epoch * (num_examples / batch_size))
    /\ forall (X : Type) (proj : event -> list X),
         (forall e s i, proj (EvEpoch e s i) = []) ->
         flat_map proj tr
         = flat_map
             (fun s => flat_map proj (batch_events a (spec_action c s) s))
             (py_range (resumed_step load a)
                (stop_epoch * (num_examples / batch_size))).
Proof.
  intros Hc H0.
  apply (run_epochs_from _ num_batches_pos (fun s => 0 <= s)
           (fun s (H : 0 <= s) => Z.le_le_succ_r 0 s H)
           (wacgan_batch c
              (Thresholds (spec_initial_steps c) (spec_passing_steps c)
                 (spec_block_steps c)) a)
           (fun s => batch_events a (spec_action c s) s)
           (fun st => batch_state (spec_action c (step st)) st)).
  - intros idx st Hst. apply wacgan_batch_run.
    now apply schedulable_decide.
  - reflexivity.
  - exact H0.
Qed.

Lemma lift_ok {A : Type} (x : A) (st : loop_state) :
  lift (Ok x) st = ([], Ok (x, st)).
Proof. reflexivity. Qed.

Lemma set_step_start (s : Z) :
  set_step s (start_state 0) = ([], Ok (tt, LoopState s 0 0)).
Proof. reflexivity. Qed.

(** [DiscoGAN.train] and [GAN.train] finish, on the same events up to
    the final checkpoint of the latter. *)
Lemma joint_train_total :
  exists tr st,
    discogan_train load num_examples batch_size a = (tr, Ok (tt, st))
    /\ gan_train load num_examples batch_size a
       = (tr ++ (if is_some (dir_given (checkpoint_dir a))
                 then [EvSave (step st)] else []),
          Ok (tt, st))
    /\ step st
       = Z.max (resumed_step load a)
           (num_epochs a * (num_examples / batch_size))
    /\ forall (X : Type) (proj : event -> list X),
         (forall e s i, proj (EvEpoch e s i) = []) ->
         flat_map proj tr
         = flat_map (fun s => flat_map proj (batch_events a TrainDG s))
             (py_range (resumed_step load a)
                (num_epochs a * (num_examples / batch_size))).
Proof.
  destruct (joint_epochs_total (num_epochs a)) as (tr & st & E & Hs & Hp).
  exists tr, st. unfold discogan_train, gan_train.
  rewrite prologue_ok. cbn [run_from].
  rewrite !(bind_ok _ _ _ _ _ _ (set_step_start _)).
  rewrite (bind_ok _ _ _ _ _ _ E), E, final_save_run.
  cbn [fst snd app]. repeat split; assumption.
Qed.

(** [WACGAN.train] finishes on a schedulable configuration. *)
Lemma wacgan_train_total (c : config) :
  schedulable c = true -> 0 <= resumed_step load a ->
  exists tr st,
    wacgan_train load num_examples batch_size c a
    = (tr ++ (if is_some (dir_given (checkpoint_dir a))
              then [EvSave (step st)] else []),
       Ok (tt, st))
    /\ step st
       = Z.max (resumed_step load a)
           (num_epochs a * (num_examples / batch_size))
    /\ forall (X : Type) (proj : event -> list X),
         (forall e s i, proj (EvEpoch e s i) = []) ->
         flat_map proj tr
         = flat_map
             (fun s => flat_map proj (batch_events a (spec_action c s) s))
             (py_range (resumed_step load a)
                (num_epochs a * (num_examples / batch_size))).
Proof.
  intros Hc H0.
  destruct (wacgan_epochs_total c (num_epochs a) Hc H0)
    as (tr & st & E & Hs & Hp).
  destruct (schedulable_spec c Hc) as (_ & Hr & _).
  exists tr, st. unfold wacgan_train.
  rewrite prologue_ok. cbn [run_from].
  rewrite (bind_ok _ _ _ _ _ _ (set_step_start _)).
  rewrite thresholds_ok by lia.
  rewrite !(bind_ok _ _ _ _ _ _ (lift_ok _ _)).
  rewrite !(bind_ok _ _ _ _ _ _ E), final_save_run.
  cbn [fst snd app]. repeat split; assumption.
Qed.

End TrainFacts.

(** * The claims *)

Section Claims.

Import Scheduler Loop LoopSpec Examples.

(** The scenario of section 8: with [initial_steps = 10], the steps 0 to
    9 are four discriminator-only updates and one joint update, twice. *)
Example burst_warmup :
  compute_thresholds burst_config = Ok (Thresholds 10 34 32)
  /\ map (step_decision burst_config) (py_range 0 10)
     = [Ok TrainD; Ok TrainD; Ok TrainD; Ok TrainD; Ok TrainDG;
        Ok TrainD; Ok TrainD; Ok TrainD; Ok TrainD; Ok TrainDG].
Proof. split; reflexivity. Qed.

(** C1: with [d_iters], [d_high_iters] and [d_step_high_rounds] at least
    1, the thresholds of [WACGAN.train] are [initial_steps],
    [passing_steps] and [block_steps] of section 4.3, and the batch
    iteration entered at global step [s] runs the joint update exactly
    when the three-branch rule of section 4.3 holds at [s], and the
    discriminator-only update otherwise. *)
Theorem scheduler_follows_rule (c : config) (s : Z) :
  1 <= d_iters c -> 1 <= d_high_iters c -> 1 <= d_step_high_rounds c ->
  compute_thresholds c
  = Ok (Thresholds (spec_initial_steps c) (spec_passing_steps c)
          (spec_block_steps c))
  /\ step_decision c s
     = Ok (if spec_update_generator c s then TrainDG else TrainD)
  /\ forall (a : train_args) (idx : Z) (st : loop_state),
       step st = s ->
       updates
         (fst (wacgan_batch c
                 (Thresholds (spec_initial_steps c) (spec_passing_steps c)
                    (spec_block_steps c)) a idx st))
       = [(s, if spec_update_generator c s then TrainDG else TrainD)].
Proof.
  intros Hi Hh Hr.
  assert (Ht := thresholds_ok c ltac:(lia)).
  assert (Hd := decide_spec c s Hi
                  (block_steps_pos c Hi Hr (or_introl Hh)) ltac:(lia)).
  split; [exact Ht |]. split.
  - unfold step_decision. rewrite Ht. exact Hd.
  - intros a idx st Hs. subst s.
    rewrite (wacgan_batch_run a c _ idx st _ Hd). cbn [fst].
    apply updates_batch_events.
Qed.

Lemma scheduler_follows_rule_witness :
  step_decision burst_config 4 = Ok TrainDG
  /\ step_decision burst_config 5 = Ok TrainD.
Proof.
  split.
  - apply (scheduler_follows_rule burst_config 4); cbn; lia.
  - apply (scheduler_follows_rule burst_config 5); cbn; lia.
Defined.

Lemma updates_of_steps (a : train_args) (act : Z -> action) (l : list Z)
    (tr : list event) :
  (forall (X : Type) (proj : event -> list X),
      (forall e s i, proj (EvEpoch e s i) = []) ->
      flat_map proj tr
      = flat_map (fun s => flat_map proj (batch_events a (act s) s)) l) ->
  updates tr = map (fun s => (s, act s)) l.
Proof.
  intros Hp. unfold updates. rewrite Hp by reflexivity. clear Hp.
  induction l as [| s l IH]; [reflexivity |].
  cbn [flat_map map]. rewrite IH.
  pose proof (updates_batch_events a (act s) s) as Hb.
  unfold updates in Hb. now rewrite Hb.
Qed.

Lemma updates_final_save (a : train_args) (tr : list event) (s : Z) :
  updates (tr ++ (if is_some (dir_given (checkpoint_dir a))
                  then [EvSave s] else []))
  = updates tr.
Proof.
  rewrite updates_app.
  destruct (is_some (dir_given (checkpoint_dir a))); apply app_nil_r.
Qed.

(** C2: the events of a batch iteration of [WACGAN.train] depend on the
    loop state only through the global step; hence, on a schedulable
    configuration, the run resumed from a checkpoint at [step0] takes
    the same action at every step from [step0] on as the run started at
    step 0 does once it has passed [step0], and that action is the
    decision of the scheduler for the step. *)
Theorem resume_preserves_decisions
    (load : string -> option Z -> bool * Z) (num_examples batch_size : Z)
    (c : config) (a : train_args) (d : string) (step0 : Z) :
  schedulable c = true -> 0 < num_examples / batch_size -> 0 <= step0 ->
  dir_given (checkpoint_dir a) = Some d ->
  load d (resume_step a) = (true, step0) ->
  (forall t idx st1 st2,
      step st1 = step st2 ->
      fst (wacgan_batch c t a idx st1) = fst (wacgan_batch c t a idx st2))
  /\ (exists st,
        snd (wacgan_train load num_examples batch_size c
               (with_resume false a)) = Ok (tt, st))
  /\ (exists st,
        snd (wacgan_train load num_examples batch_size c
               (with_resume true a)) = Ok (tt, st))
  /\ updates (fst (wacgan_train load num_examples batch_size c
                     (with_resume true a)))
     = skipn (Z.to_nat step0)
         (updates (fst (wacgan_train load num_examples batch_size c
                          (with_resume false a))))
  /\ Forall (fun p => step_decision c (fst p) = Ok (snd p))
       (updates (fst (wacgan_train load num_examples batch_size c
                        (with_resume true a)))).
Proof.
  intros Hc Hnb H0 Hd Hl.
  assert (Hfresh : resumed_step load (with_resume false a) = 0)
    by reflexivity.
  assert (Hres : resumed_step load (with_resume true a) = step0).
  { unfold resumed_step. cbn [with_resume resume checkpoint_dir resume_step].
    now rewrite Hd, Hl. }
  destruct (wacgan_train_total load num_examples batch_size
              (with_resume false a) Hnb c Hc ltac:(rewrite Hfresh; lia))
    as (tr0 & st0 & E0 & _ & Hp0).
  destruct (wacgan_train_total load num_examples batch_size
              (with_resume true a) Hnb c Hc ltac:(rewrite Hres; lia))
    as (tr1 & st1 & E1 & _ & Hp1).
  apply updates_of_steps in Hp0, Hp1.
  rewrite Hfresh in Hp0. rewrite Hres in Hp1.
  rewrite E0, E1. cbn [fst snd]. rewrite !updates_final_save, Hp0, Hp1.
  cbn [with_resume num_epochs].
  split; [| split; [now exists st0 | split; [now exists st1 | split]]].
  - intros t idx sa sb Hs.
    destruct (decide c t (step sa)) as [act | e] eqn:Ed.
    + rewrite (wacgan_batch_run a c t idx sa act Ed).
      rewrite Hs in Ed. rewrite (wacgan_batch_run a c t idx sb act Ed).
      cbn [fst]. now rewrite Hs.
    + rewrite (wacgan_batch_raise a c t idx sa e Ed).
      rewrite Hs in Ed. now rewrite (wacgan_batch_raise a c t idx sb e Ed).
  - now rewrite skipn_map, py_range_skipn.
  - apply Forall_forall. intros [s act] Hin.
    apply in_map_iff in Hin as (s' & E & Hin). inversion E; subst s' act.
    apply in_map_iff in Hin as (i & Ei & _).
    destruct (schedulable_decide c s Hc ltac:(lia)) as [Ht Hdec].
    cbn [fst snd]. unfold step_decision. now rewrite Ht.
Qed.

Lemma resume_preserves_decisions_witness :
  updates (fst (wacgan_train (load_at 25) 1280 128 burst_config
                  (with_resume true call)))
  = skipn 25
      (updates (fst (wacgan_train (load_at 25) 1280 128 burst_config
                       (with_resume false call)))).
Proof.
  apply (resume_preserves_decisions (load_at 25) 1280 128 burst_config call
           "checkpoints"%string 25);
    reflexivity || (cbn; lia).
Defined.

(** C3: after a successful load of a checkpoint at [step], [train]
    starts from [step] in the epoch [step // num_batches], where
    [num_batches = num_examples // batch_size], and the first epoch of
    the loop is entered at the batch index [step % num_batches]; with
    1280 examples in batches of 128 there are 10 batches, and a resume
    at step 25 starts in epoch 2 at batch 5. *)
Theorem resume_position
    (load : string -> option Z -> bool * Z) (num_examples batch_size : Z)
    (a : train_args) (d : string) (step0 : Z) :
  0 < num_examples / batch_size ->
  resume a = true ->
  dir_given (checkpoint_dir a) = Some d ->
  load d (resume_step a) = (true, step0) ->
  prologue load num_examples batch_size a
  = Ok (num_examples / batch_size, step0,
        step0 / (num_examples / batch_size))
  /\ (forall (body : Z -> M unit) (stop_epoch dn gn : Z),
        step0 / (num_examples / batch_size) < stop_epoch ->
        exists tr,
          fst (run_epochs (num_examples / batch_size) body
                 (step0 / (num_examples / batch_size)) stop_epoch
                 (LoopState step0 dn gn))
          = EvEpoch (step0 / (num_examples / batch_size)) step0
              (step0 mod (num_examples / batch_size)) :: tr)
  /\ prologue (load_at 25) 1280 128 call = Ok (10, 25, 2)
  /\ hd_error (fst (gan_train (load_at 25) 1280 128 call))
     = Some (EvEpoch 2 25 5)
  /\ hd_error (fst (wacgan_train (load_at 25) 1280 128 burst_config call))
     = Some (EvEpoch 2 25 5).
Proof.
  intros Hnb Hr Hd Hl.
  assert (Hres : resumed_step load a = step0)
    by (unfold resumed_step; now rewrite Hr, Hd, Hl).
  split; [| split; [| repeat split; reflexivity]].
  - rewrite (prologue_ok load num_examples batch_size a Hnb).
    now rewrite Hres.
  - intros body stop_epoch dn gn Hlt. unfold run_epochs.
    rewrite py_range_cons by assumption. cbn [for_each].
    unfold bind. rewrite (run_epoch_eq _ Hnb). cbn [step app].
    destruct (snd (for_each _ body _)) as [[u st'] |];
      [destruct (for_each _ (run_epoch _ body) st') |];
      cbn [fst app]; eexists; reflexivity.
Qed.

Lemma resume_position_witness :
  prologue (load_at 37) 1280 128 call = Ok (1280 / 128, 37, 37 / (1280 / 128)).
Proof.
  apply (resume_position (load_at 37) 1280 128 call "checkpoints"%string 37);
    reflexivity.
Defined.

(** C4, as it stands, fails: with [d_high_iters = 0], [d_iters = 5] and
    [d_step_high_rounds = 1] the block has no step, and the decision of
    the very first step takes a modulus by zero. *)
Lemma zero_high_iters_counterexample :
  d_high_iters every_round_config = 0
  /\ 1 <= d_iters every_round_config
  /\ 1 <= d_step_high_rounds every_round_config
  /\ compute_thresholds every_round_config = Ok (Thresholds 0 0 0)
  /\ step_decision every_round_config 0 = Raise ZeroDivisionError
  /\ snd (wacgan_train load_nothing 1280 128 every_round_config call)
     = Raise ZeroDivisionError.
Proof. repeat split; cbn; lia || reflexivity. Qed.

(** C4, amended: with [d_high_iters = 0], [d_iters >= 1] and
    [d_step_high_rounds >= 2], [initial_steps] is 0, so that no step
    [s >= 0] takes the WARMUP branch; every such step is decided without
    an exception, and there is no burst: the joint update runs exactly
    when [(s + 1) mod d_iters = 0]. *)
Theorem zero_high_iters_total (c : config) (s : Z) :
  d_high_iters c = 0 -> 1 <= d_iters c -> 2 <= d_step_high_rounds c ->
  0 <= s ->
  (exists t,
      compute_thresholds c = Ok t
      /\ initial_steps t = 0
      /\ (s <? initial_steps t) = false
      /\ 0 < block_steps t
      /\ decide c t s
         = Ok (if (s + 1) mod d_iters c =? 0 then TrainDG else TrainD))
  /\ step_decision c s
     = Ok (if (s + 1) mod d_iters c =? 0 then TrainDG else TrainD).
Proof.
  intros Hh Hi Hr Hs.
  assert (Hc : schedulable c = true).
  { unfold schedulable. rewrite Hh.
    destruct (Z.leb_spec 1 (d_iters c)); [| lia].
    destruct (Z.leb_spec 1 (d_step_high_rounds c)); [| lia].
    destruct (Z.leb_spec 2 (d_step_high_rounds c)); [| lia].
    reflexivity. }
  destruct (schedulable_decide c s Hc Hs) as [Ht Hd].
  rewrite (no_burst_rule c s Hh Hi Hr Hs) in Hd.
  assert (H0 : spec_initial_steps c = 0)
    by (unfold spec_initial_steps; rewrite Hh; lia).
  split.
  - eexists. split; [exact Ht |]. cbn [initial_steps block_steps].
    repeat split; [exact H0 | rewrite H0; now apply Z.ltb_ge | | exact Hd].
    unfold spec_block_steps. nia.
  - unfold step_decision. rewrite Ht. exact Hd.
Qed.

Lemma zero_high_iters_total_witness :
  step_decision default_config 4 = Ok TrainDG
  /\ step_decision default_config 5 = Ok TrainD.
Proof.
  split.
  - apply (zero_high_iters_total default_config 4); cbn; lia.
  - apply (zero_high_iters_total default_config 5); cbn; lia.
Defined.

Lemma saves_of_steps (a : train_args) (act : Z -> action) (l : list Z)
    (tr : list event) :
  (forall (X : Type) (proj : event -> list X),
      (forall e s i, proj (EvEpoch e s i) = []) ->
      flat_map proj tr
      = flat_map (fun s => flat_map proj (batch_events a (act s) s)) l) ->
  saves tr = flat_map (fun s => if save_cond a (s + 1) then [s + 1] else []) l.
Proof.
  intros Hp. unfold saves. rewrite Hp by reflexivity. clear Hp.
  apply flat_map_ext. intros s.
  pose proof (saves_batch_events a (act s) s) as Hb.
  unfold saves in Hb. exact Hb.
Qed.

(** C8: with a checkpoint directory, [GAN.train] and [WACGAN.train]
    finish with a checkpoint of the final step as their last event,
    whatever [save_step] is; [DiscoGAN.train] finishes on the events of
    [GAN.train] without that last one, its checkpoints being those of
    the [save_step] boundaries only. *)
Theorem final_checkpoint
    (load : string -> option Z -> bool * Z) (num_examples batch_size : Z)
    (c : config) (a : train_args) (d : string) :
  0 < num_examples / batch_size ->
  dir_given (checkpoint_dir a) = Some d ->
  schedulable c = true -> 0 <= resumed_step load a ->
  exists tr st tr_w st_w,
    gan_train load num_examples batch_size a
    = (tr ++ [EvSave (step st)], Ok (tt, st))
    /\ wacgan_train load num_examples batch_size c a
       = (tr_w ++ [EvSave (step st_w)], Ok (tt, st_w))
    /\ discogan_train load num_examples batch_size a = (tr, Ok (tt, st))
    /\ step st
       = Z.max (resumed_step load a)
           (num_epochs a * (num_examples / batch_size))
    /\ step st_w = step st
    /\ saves tr
       = flat_map (fun s => if save_cond a (s + 1) then [s + 1] else [])
           (py_range (resumed_step load a)
              (num_epochs a * (num_examples / batch_size))).
Proof.
  intros Hnb Hd Hc H0.
  destruct (joint_train_total load num_examples batch_size a Hnb)
    as (tr & st & Ed & Eg & Hs & Hp).
  destruct (wacgan_train_total load num_examples batch_size a Hnb c Hc H0)
    as (tr_w & st_w & Ew & Hs_w & _).
  rewrite Hd in Eg, Ew. cbn [is_some] in Eg, Ew.
  exists tr, st, tr_w, st_w.
  repeat split; try assumption; [congruence |].
  now apply saves_of_steps with (act := fun _ => TrainDG).
Qed.

Lemma final_checkpoint_witness :
  exists tr st tr_w st_w,
    gan_train load_nothing 1280 128 call
    = (tr ++ [EvSave (step st)], Ok (tt, st))
    /\ wacgan_train load_nothing 1280 128 burst_config call
       = (tr_w ++ [EvSave (step st_w)], Ok (tt, st_w))
    /\ discogan_train load_nothing 1280 128 call = (tr, Ok (tt, st))
    /\ step st = Z.max (resumed_step load_nothing call) (3 * (1280 / 128))
    /\ step st_w = step st
    /\ saves tr
       = flat_map (fun s => if save_cond call (s + 1) then [s + 1] else [])
           (py_range (resumed_step load_nothing call) (3 * (1280 / 128))).
Proof.
  apply (final_checkpoint load_nothing 1280 128 burst_config call
           "checkpoints"%string);
    reflexivity || (cbn; lia).
Defined.

(** C9, as it stands, fails: in [WACGAN.train] a discriminator-only
    step writes no summary although a writer is attached; and without a
    sample callback no sample is produced on a step the stride
    divides. *)
Lemma batch_iteration_counterexample :
  writer_attached call = true
  /\ compute_thresholds burst_config = Ok (Thresholds 10 34 32)
  /\ decide burst_config (Thresholds 10 34 32) 0 = Ok TrainD
  /\ fst (wacgan_batch burst_config (Thresholds 10 34 32) call 0
            (start_state 0))
     = [EvUpdate TrainD 0]
  /\ summaries (fst (wacgan_batch burst_config (Thresholds 10 34 32) call 0
                       (start_state 0)))
     = []
  /\ claimed_batch_events call TrainD 0 = [EvUpdate TrainD 0; EvSummary 0]
  /\ sample_step call_without_sample_fn = SampleEvery 1
  /\ (0 + 1) mod 1 = 0
  /\ fst (joint_batch call_without_sample_fn 0 (start_state 0))
     = [EvUpdate TrainDG 0; EvSummary 0]
  /\ samples (fst (joint_batch call_without_sample_fn 0 (start_state 0)))
     = [].
Proof. repeat split. Qed.

(** C9, amended: a batch iteration of [GAN.train] and [DiscoGAN.train]
    entered at global step [s] runs the joint update and, with a writer
    attached, writes a summary tagged [s]; a batch iteration of
    [WACGAN.train] runs the update the scheduler decides and writes the
    summary only after a joint update.  The step is then incremented; a
    checkpoint of the incremented step is saved iff a checkpoint
    directory is given, [save_step] is not zero and divides it; a
    sample is produced iff a sample callback is given and
    [sample_step] is a stride, not zero, that divides the incremented
    step, or a collection that contains it.  These events happen in this
    order, and nothing else does. *)
Theorem batch_iteration (a : train_args) (idx : Z) (st : loop_state) :
  joint_batch a idx st
  = (EvUpdate TrainDG (step st)
     :: (if writer_attached a then [EvSummary (step st)] else [])
     ++ (if save_cond a (step st + 1) then [EvSave (step st + 1)] else [])
     ++ (if sample_cond a (step st + 1) then [EvSample (step st + 1)]
         else []),
     Ok (tt, LoopState (step st + 1) (d_seen st + 1) (g_seen st + 1)))
  /\ forall (c : config) (t : thresholds),
       match decide c t (step st) with
       | Ok act =>
           wacgan_batch c t a idx st
           = (EvUpdate act (step st)
              :: (if writer_attached a && action_eqb act TrainDG
                  then [EvSummary (step st)] else [])
              ++ (if save_cond a (step st + 1)
                  then [EvSave (step st + 1)] else [])
              ++ (if sample_cond a (step st + 1)
                  then [EvSample (step st + 1)] else []),
              Ok (tt, batch_state act st))
       | Raise e => wacgan_batch c t a idx st = ([], Raise e)
       end.
Proof.
  split.
  - rewrite joint_batch_run. unfold batch_events, after_events.
    now rewrite andb_true_r.
  - intros c t. destruct (decide c t (step st)) as [act | e] eqn:Ed.
    + rewrite (wacgan_batch_run a c t idx st act Ed).
      unfold batch_events, after_events. now destruct act.
    + now apply wacgan_batch_raise.
Qed.

Lemma epochs_bind {A B : Type} (m : M A) (f : A -> M B) (st : loop_state) :
  epochs (fst (bind m f st))
  = epochs (fst (m st))
    ++ match snd (m st) with
       | Ok (x, st') => epochs (fst (f x st'))
       | Raise _ => []
       end.
Proof.
  unfold bind. destruct (m st) as [tr [[x st'] | e]]; cbn [fst snd].
  - destruct (f x st') as [tr' r]. cbn [fst]. apply epochs_app.
  - now rewrite app_nil_r.
Qed.

Lemma joint_batch_no_epoch (a : train_args) (idx : Z) (st : loop_state) :
  epochs (fst (joint_batch a idx st)) = [].
Proof.
  rewrite joint_batch_run. unfold batch_events, after_events, epochs.
  cbn [fst flat_map app]. rewrite !flat_map_app.
  destruct (_ && _), (save_cond _ _), (sample_cond _ _); reflexivity.
Qed.

Lemma wacgan_batch_no_epoch (c : config) (t : thresholds) (a : train_args)
    (idx : Z) (st : loop_state) :
  epochs (fst (wacgan_batch c t a idx st)) = [].
Proof.
  destruct (decide c t (step st)) as [act | e] eqn:Ed.
  - rewrite (wacgan_batch_run a c t idx st act Ed).
    unfold batch_events, after_events, epochs.
    cbn [fst flat_map app]. rewrite !flat_map_app.
    destruct (_ && _), (save_cond _ _), (sample_cond _ _); reflexivity.
  - now rewrite (wacgan_batch_raise a c t idx st e Ed).
Qed.

Lemma wacgan_batch_step (c : config) (t : thresholds) (a : train_args)
    (idx : Z) (st : loop_state) (u : unit) (st' : loop_state) :
  snd (wacgan_batch c t a idx st) = Ok (u, st') -> step st' = step st + 1.
Proof.
  destruct (decide c t (step st)) as [act | e] eqn:Ed.
  - rewrite (wacgan_batch_run a c t idx st act Ed). cbn [snd].
    intros E. inversion E. reflexivity.
  - rewrite (wacgan_batch_raise a c t idx st e Ed). discriminate.
Qed.

Lemma joint_batch_step (a : train_args) (idx : Z) (st : loop_state)
    (u : unit) (st' : loop_state) :
  snd (joint_batch a idx st) = Ok (u, st') -> step st' = step st + 1.
Proof.
  rewrite joint_batch_run. cbn [snd]. intros E. inversion E. reflexivity.
Qed.

Lemma final_save_no_epoch (a : train_args) (st : loop_state) :
  epochs (fst (final_save a st)) = [].
Proof.
  rewrite final_save_run.
  now destruct (is_some (dir_given (checkpoint_dir a))).
Qed.

(** The epochs entered by the loop followed by the final checkpoint. *)
Lemma epochs_then_final_save (m : M unit) (a : train_args)
    (st : loop_state) :
  epochs (fst (bind m (fun _ => final_save a) st)) = epochs (fst (m st)).
Proof.
  rewrite epochs_bind.
  destruct (snd (m st)) as [[u st'] | e].
  - now rewrite final_save_no_epoch, app_nil_r.
  - apply app_nil_r.
Qed.

(** C10: in every run of [GAN.train], [DiscoGAN.train] and
    [WACGAN.train] with a positive number of batches, resumed or not and
    however it ends, every epoch after the first one entered is entered
    with the global step on a multiple of [num_batches], so that its
    [start_idx = step % num_batches] is 0. *)
Theorem later_epochs_start_at_zero
    (load : string -> option Z -> bool * Z) (num_examples batch_size : Z)
    (c : config) (a : train_args) :
  0 < num_examples / batch_size ->
  Forall (aligned (num_examples / batch_size))
    (tl (epochs (fst (gan_train load num_examples batch_size a))))
  /\ Forall (aligned (num_examples / batch_size))
       (tl (epochs (fst (discogan_train load num_examples batch_size a))))
  /\ Forall (aligned (num_examples / batch_size))
       (tl (epochs (fst (wacgan_train load num_examples batch_size c a)))).
Proof.
  intros Hnb.
  unfold gan_train, discogan_train, wacgan_train.
  rewrite (prologue_ok load num_examples batch_size a Hnb). cbn [run_from].
  split; [| split]; rewrite epochs_bind; cbn [set_step fst snd app].
  - rewrite epochs_then_final_save.
    apply (run_epochs_entry _ Hnb (joint_batch a)
             (joint_batch_no_epoch a) (joint_batch_step a)).
  - apply (run_epochs_entry _ Hnb (joint_batch a)
             (joint_batch_no_epoch a) (joint_batch_step a)).
  - rewrite epochs_bind.
    destruct (compute_thresholds c) as [t | e]; cbn [lift fst snd app];
      [| constructor].
    rewrite epochs_then_final_save.
    apply (run_epochs_entry _ Hnb (wacgan_batch c t a)
             (wacgan_batch_no_epoch c t a) (wacgan_batch_step c t a)).
Qed.

Lemma later_epochs_start_at_zero_witness :
  epochs (fst (gan_train (load_at 25) 1280 128 call_five_epochs))
  = [(25, 5); (30, 0); (40, 0)]
  /\ Forall (aligned (1280 / 128))
       (tl (epochs (fst (gan_train (load_at 25) 1280 128 call_five_epochs)))).
Proof.
  split; [reflexivity |].
  apply (later_epochs_start_at_zero (load_at 25) 1280 128 burst_config
           call_five_epochs).
  reflexivity.
Defined.

End Claims.

(** ** Loss assembly *)

Section LossFacts.

Import Losses.

Context {F : Type} `{Scalar F}.

Lemma reduce_sum_zeros (v : list F) :
  add zero zero = zero ->
  Forall (fun x => x = zero) v -> reduce_sum v = zero.
Proof.
  intros Hadd Hv. unfold reduce_sum.
  induction Hv as [| x v Hx _ IH]; [reflexivity |].
  cbn [fold_left]. now rewrite Hx, Hadd.
Qed.

(** The penalty written sample by sample. *)
Lemma gradient_penalty_rows (lambda : F) (grad : mat) :
  gradient_penalty lambda grad
  = mul lambda
      (reduce_mean
         (map (fun row =>
                 square (sub (sqrt (reduce_sum (map square row))) one))
              grad)).
Proof.
  unfold gradient_penalty, reduce_sum_axis1. now rewrite !map_map.
Qed.

Lemma one_hot_smoothed (s k : F) (ys : list Z) (n : Z) :
  (forall a b : F, mul a b = mul b a) ->
  map (map (fun l => add (mul l s) k)) (one_hot ys n)
  = map (fun i =>
           map (fun j => add (mul s (one_hot_entry i j)) k)
               (Loop.py_range 0 n)) ys.
Proof.
  intros Hcomm. unfold one_hot. rewrite map_map.
  apply map_ext. intros i. rewrite map_map.
  apply map_ext. intros j. now rewrite Hcomm.
Qed.

End LossFacts.

Lemma SFmul_comm (prec emax : Z) (x y : spec_float) :
  SFmul prec emax x y = SFmul prec emax y x.
Proof.
  destruct x as [sx | sx | | sx mx ex], y as [sy | sy | | sy my ey];
    cbn [SFmul]; try reflexivity;
    rewrite (xorb_comm sx sy); try reflexivity.
  now rewrite Pos.mul_comm, Z.add_comm.
Qed.

Section LossClaims.

Import Losses Binary32.

(** C5: in [WACGAN._build_losses] the critic loss is the mean of the
    critic outputs on the generated batch minus their mean on the real
    batch, and the generator loss the negated mean on the generated
    batch, both on the outputs of the last linear layer, to which no
    activation is applied; [d_total_loss] is
    [d_loss + d_c_loss + d_grad_loss + d_reg_loss], [g_total_loss] is
    [g_loss + g_c_loss + g_reg_loss], and a regularization term is 0
    when its collection is empty.  The losses are built unless
    [num_classes] is 0 while labels are smoothed. *)
Theorem wacgan_loss_assembly {F : Type} `{Scalar F}
    (softmax_cross_entropy : list F -> list F -> F)
    (D : critic) (softmax : list F -> list F) (X G : mat) (epsilon : vec)
    (y c : list Z) (num_classes : Z) (d_lambda d_label_smooth : F)
    (g_reg_ops d_reg_ops : list F) :
  match
    wacgan_build_losses softmax_cross_entropy
      (wacgan_build_GAN D softmax X G epsilon y c num_classes d_lambda
         d_label_smooth g_reg_ops d_reg_ops)
  with
  | Ok L =>
      d_loss L = sub (reduce_mean (fc_d D G)) (reduce_mean (fc_d D X))
      /\ g_loss L = neg (reduce_mean (fc_d D G))
      /\ d_total_loss L
         = add (add (add (d_loss L) (d_c_loss L)) (d_grad_loss L))
             (d_reg_loss L)
      /\ g_total_loss L = add (add (g_loss L) (g_c_loss L)) (g_reg_loss L)
      /\ g_reg_loss L = reg_loss g_reg_ops
      /\ d_reg_loss L = reg_loss d_reg_ops
      /\ d_grad_loss L
         = gradient_penalty d_lambda (grad_d D (interpolate X G epsilon))
  | Raise _ => num_classes = 0 /\ gtb d_label_smooth zero = true
  end
  /\ reg_loss (@nil F) = zero
  /\ forall (activation_fn : option (F -> F))
         (class_activation_fn : option (list F -> list F))
         (out_d : list F) (out_c : list (list F)),
       outputs_d
         (discriminator_heads activation_fn class_activation_fn out_d out_c)
       = out_d.
Proof.
  split; [| split; reflexivity].
  unfold wacgan_build_losses, wacgan_build_GAN, wacgan_labels_c_real.
  cbn [d_real d_fake d_grad Losses.y Losses.c Losses.num_classes
       Losses.d_lambda Losses.d_label_smooth Losses.g_reg_ops
       Losses.d_reg_ops outputs_d outputs_c discriminator_heads].
  destruct (gtb d_label_smooth zero); [| cbn; repeat split].
  destruct (Z.eqb_spec num_classes 0) as [E | E]; cbn; repeat split.
  exact E.
Qed.

(** C6: the penalty of [WACGAN._build_losses] is taken on the gradient
    of the critic at [X_hat = X * epsilon + G * (1 - epsilon)], with one
    [epsilon] per sample, and [d_grad_loss] is [d_lambda] times the mean
    over the samples of [(norm - 1)^2], [norm] being the square root of
    the sum of the squared entries of the sample's gradient: this holds
    for every critic, batch and [epsilon].  When that norm is exactly 1
    for every sample the penalty is exactly 0, on any scalars on which
    [1 - 1], [0 * 0], [0 + 0], [0 / batch size] and [d_lambda * 0] are
    0. *)
Theorem gradient_penalty_unit_norm {F : Type} `{Scalar F}
    (D : critic) (softmax : list F -> list F) (X G : mat) (epsilon : vec)
    (y c : list Z) (num_classes : Z) (d_lambda d_label_smooth : F)
    (g_reg_ops d_reg_ops : list F) :
  let g := wacgan_build_GAN D softmax X G epsilon y c num_classes d_lambda
             d_label_smooth g_reg_ops d_reg_ops in
  X_hat g
  = map (fun r =>
           map (fun p => add (mul (fst p) (snd r))
                           (mul (snd p) (sub one (snd r))))
               (combine (fst (fst r)) (snd (fst r))))
        (combine (combine X G) epsilon)
  /\ d_grad g = grad_d D (X_hat g)
  /\ (forall softmax_cross_entropy L,
        wacgan_build_losses softmax_cross_entropy g = Ok L ->
        d_grad_loss L
        = mul d_lambda
            (reduce_mean
               (map (fun row =>
                       square
                         (sub (sqrt (reduce_sum (map square row))) one))
                    (d_grad g))))
  /\ gradient_penalty (Losses.d_lambda g) (d_grad g)
     = mul d_lambda
         (reduce_mean
            (map (fun row =>
                    square (sub (sqrt (reduce_sum (map square row))) one))
                 (d_grad g)))
  /\ (sub one one = zero -> mul zero zero = zero -> add zero zero = zero ->
      div zero (of_Z (Z.of_nat (List.length (d_grad g)))) = zero ->
      mul d_lambda zero = zero ->
      Forall (fun row => sqrt (reduce_sum (map square row)) = one)
        (d_grad g) ->
      gradient_penalty (Losses.d_lambda g) (d_grad g) = zero
      /\ forall softmax_cross_entropy L,
           wacgan_build_losses softmax_cross_entropy g = Ok L ->
           d_grad_loss L = zero).
Proof.
  intros g.
  assert (Hloss : forall softmax_cross_entropy L,
             wacgan_build_losses softmax_cross_entropy g = Ok L ->
             d_grad_loss L
             = gradient_penalty (Losses.d_lambda g) (d_grad g)).
  { intros xent L E. unfold wacgan_build_losses in E.
    destruct (wacgan_labels_c_real _ _ _) as [labels | e];
      cbn [res_bind] in E; [| discriminate].
    inversion E. reflexivity. }
  split; [| split; [reflexivity | split; [| split]]].
  - unfold g, wacgan_build_GAN, interpolate, map2. cbn [X_hat].
    apply map_ext. now intros [[x gx] e].
  - intros xent L E. rewrite (Hloss xent L E).
    apply gradient_penalty_rows.
  - apply gradient_penalty_rows.
  - intros Hsub Hmul Hadd Hdiv Hlam Hnorm.
    assert (Hzero : gradient_penalty (Losses.d_lambda g) (d_grad g) = zero).
    { rewrite gradient_penalty_rows.
      cbn [Losses.d_lambda g wacgan_build_GAN].
      unfold reduce_mean. rewrite length_map, reduce_sum_zeros.
      + fold g. now rewrite Hdiv.
      + exact Hadd.
      + apply Forall_map. revert Hnorm. apply Forall_impl.
        intros row Hrow. unfold square at 1. now rewrite Hrow, Hsub. }
    split; [exact Hzero |].
    intros xent L E. now rewrite (Hloss xent L E).
Qed.

Lemma gradient_penalty_unit_norm_witness :
  gradient_penalty (Binary32.float_of_Z 10)
    (grad_d Binary32.first_feature_critic
       (interpolate Binary32.real_batch Binary32.fake_batch
          [Binary32.half; Binary32.quarter]))
  = S754_zero false.
Proof.
  refine (proj1 (proj2 (proj2 (proj2 (proj2
            (gradient_penalty_unit_norm Binary32.first_feature_critic
               (fun r => r) Binary32.real_batch Binary32.fake_batch
               [Binary32.half; Binary32.quarter] [0; 1] [1; 0] 2
               (Binary32.float_of_Z 10) Binary32.quarter [] []))))
            eq_refl eq_refl eq_refl eq_refl eq_refl _)).
  repeat constructor.
Defined.

(** Away from unit norm the penalty is not 0: gradients of norm 5 and 1
    give [10 * ((4 * 4 + 0 * 0) / 2)]. *)
Example gradient_penalty_value :
  gradient_penalty (Binary32.float_of_Z 10)
    [[Binary32.float_of_Z 3; Binary32.float_of_Z 4];
     [Binary32.float_of_Z 0; Binary32.float_of_Z 1]]
  = Binary32.float_of_Z 80.
Proof. vm_compute. reflexivity. Qed.

(** C7: with [d_label_smooth = s > 0], the real labels of the
    discriminator loss are [1 - s] in every entry in [GAN._build_losses]
    and in [DiscoGAN._build_losses], where one label tensor serves the
    losses of both domains, and [(1 - s) * one_hot + s / num_classes] in
    every entry in [WACGAN._build_losses]; with [s = 0] they are exactly
    1 and exactly the one-hot rows. *)
Theorem label_smoothing {F : Type} `{Scalar F}
    (s : F) (d_real_outputs_d x_d_real_outputs_d y_d_real_outputs_d : vec)
    (num_classes : Z) (y : list Z) :
  (forall a b : F, mul a b = mul b a) ->
  gtb zero zero = false ->
  (gtb s zero = true ->
   gan_labels_real s d_real_outputs_d
   = map (fun _ => sub one s) d_real_outputs_d
   /\ (forall xent,
         gan_d_loss_real xent s d_real_outputs_d
         = reduce_mean
             (map2 xent d_real_outputs_d
                (map (fun _ => sub one s) d_real_outputs_d)))
   /\ (forall xent,
         let L := disco_build_d_losses xent s x_d_real_outputs_d
                    y_d_real_outputs_d in
         disco_labels L = map (fun _ => sub one s) x_d_real_outputs_d
         /\ x_d_loss_real L
            = reduce_mean (map2 xent x_d_real_outputs_d (disco_labels L))
         /\ y_d_loss_real L
            = reduce_mean (map2 xent y_d_real_outputs_d (disco_labels L)))
   /\ (num_classes <> 0 ->
       wacgan_labels_c_real s num_classes y
       = Ok (map (fun i =>
                    map (fun j =>
                           add (mul (sub one s) (one_hot_entry i j))
                             (div s (of_Z num_classes)))
                        (Loop.py_range 0 num_classes)) y)))
  /\ gan_labels_real zero d_real_outputs_d
     = map (fun _ => one) d_real_outputs_d
  /\ (forall xent,
        disco_labels
          (disco_build_d_losses xent zero x_d_real_outputs_d
             y_d_real_outputs_d)
        = map (fun _ => one) x_d_real_outputs_d)
  /\ wacgan_labels_c_real zero num_classes y = Ok (one_hot y num_classes).
Proof.
  intros Hcomm Hirr. split; [intros Hs | ].
  - assert (Hl : forall v : vec,
               map (fun o => sub o s) (ones_like v)
               = map (fun _ => sub one s) v)
      by (intros v; unfold ones_like; now rewrite map_map).
    split; [| split; [| split]].
    + unfold gan_labels_real. now rewrite Hs, Hl.
    + intros xent. unfold gan_d_loss_real, gan_labels_real.
      now rewrite Hs, Hl.
    + intros xent L. unfold L, disco_build_d_losses, disco_labels_real.
      cbn [disco_labels x_d_loss_real y_d_loss_real].
      rewrite Hs, Hl. now repeat split.
    + intros Hn. unfold wacgan_labels_c_real. rewrite Hs.
      destruct (Z.eqb_spec num_classes 0) as [E | _]; [contradiction |].
      now rewrite one_hot_smoothed.
  - unfold gan_labels_real, disco_build_d_losses, disco_labels_real,
      wacgan_labels_c_real.
    cbn [disco_labels]. rewrite Hirr. now repeat split.
Qed.

Lemma label_smoothing_witness :
  gan_labels_real Binary32.quarter [Binary32.float_of_Z 3; Binary32.half]
  = [Binary32.float_of_dyadic 3 (-2); Binary32.float_of_dyadic 3 (-2)]
  /\ wacgan_labels_c_real Binary32.quarter 2 [1]
     = Ok [[Binary32.float_of_dyadic 1 (-3); Binary32.float_of_dyadic 7 (-3)]].
Proof.
  destruct (label_smoothing (H := Binary32.scalar) Binary32.quarter
              [Binary32.float_of_Z 3; Binary32.half] [] [] 2 [1]
              (SFmul_comm Binary32.prec Binary32.emax) eq_refl)
    as [Hs _].
  destruct (Hs eq_refl) as (Hg & _ & _ & Hw).
  split; [exact Hg | exact (Hw ltac:(discriminate))].
Defined.

End LossClaims.

(** * Further properties *)

(** ** The scheduler and the loop of its comment *)

Section ReferenceFacts.

Import Scheduler Loop LoopSpec Reference.

Variable c : config.
Hypothesis Hi : 1 <= d_iters c.
Hypothesis Hh : 1 <= d_high_iters c.
Hypothesis Hr : 1 <= d_step_high_rounds c.
Hypothesis HI : 0 <= d_intial_high_rounds c.

Lemma passing_rounds_bound : 0 <= passing_rounds c < d_step_high_rounds c.
Proof. apply Z.mod_pos_bound. lia. Qed.

Lemma passing_rounds_aligned :
  (d_intial_high_rounds c + passing_rounds c) mod d_step_high_rounds c = 0.
Proof.
  unfold passing_rounds. rewrite Z.add_mod_idemp_r by lia.
  replace (d_intial_high_rounds c
           + (d_step_high_rounds c
              - d_intial_high_rounds c mod d_step_high_rounds c))
    with (d_intial_high_rounds c
          - d_intial_high_rounds c mod d_step_high_rounds c
          + 1 * d_step_high_rounds c) by lia.
  rewrite Z.mod_add by lia.
  rewrite Zminus_mod, Z.mod_mod, Z.sub_diag by lia.
  apply Z.mod_0_l. lia.
Qed.

Lemma passing_steps_rounds :
  spec_passing_steps c
  = spec_initial_steps c + passing_rounds c * d_iters c.
Proof. reflexivity. Qed.

(** No round of the transition is a periodic high round. *)
Lemma transition_round (g : Z) :
  d_intial_high_rounds c <= g
  < d_intial_high_rounds c + passing_rounds c ->
  g mod d_step_high_rounds c <> 0.
Proof.
  intros Hg E.
  pose proof passing_rounds_aligned as Ha.
  pose proof passing_rounds_bound as Hb.
  apply Z.mod_divide in E; [| lia]. apply Z.mod_divide in Ha; [| lia].
  destruct E as [k Ek]. destruct Ha as [k' Ek'].
  assert (0 < k' - k) by nia.
  assert (k' - k < 1) by nia.
  lia.
Qed.

Lemma round_iters_ok (g : Z) : round_iters c g = Ok (round_length c g).
Proof.
  unfold round_iters, round_length.
  destruct (g <? d_intial_high_rounds c); [reflexivity |].
  rewrite py_mod_ok by lia. cbn [res_bind orb].
  now destruct (_ =? 0).
Qed.

Lemma steps_of_rounds_succ (n : nat) :
  steps_of_rounds c (S n)
  = steps_of_rounds c n + round_length c (Z.of_nat n).
Proof. cbn [steps_of_rounds]. now rewrite round_iters_ok. Qed.

Lemma steps_warmup (n : nat) :
  Z.of_nat n <= d_intial_high_rounds c ->
  steps_of_rounds c n = Z.of_nat n * d_high_iters c.
Proof.
  induction n as [| n IH]; intros Hn; [reflexivity |].
  rewrite steps_of_rounds_succ, IH by lia. unfold round_length.
  destruct (Z.ltb_spec (Z.of_nat n) (d_intial_high_rounds c)); [| lia].
  cbn [orb]. lia.
Qed.

Lemma steps_transition (n : nat) :
  d_intial_high_rounds c <= Z.of_nat n
  <= d_intial_high_rounds c + passing_rounds c ->
  steps_of_rounds c n
  = spec_initial_steps c + (Z.of_nat n - d_intial_high_rounds c) * d_iters c.
Proof.
  induction n as [| n IH]; intros Hn.
  - cbn [steps_of_rounds]. unfold spec_initial_steps.
    replace (d_intial_high_rounds c) with 0 by lia. cbn. lia.
  - destruct (Z.eq_dec (Z.of_nat (S n)) (d_intial_high_rounds c)) as [E | E].
    + rewrite steps_warmup by lia. unfold spec_initial_steps. lia.
    + rewrite steps_of_rounds_succ, IH by lia. unfold round_length.
      destruct (Z.ltb_spec (Z.of_nat n) (d_intial_high_rounds c)); [lia |].
      destruct (Z.eqb_spec (Z.of_nat n mod d_step_high_rounds c) 0) as [E0 | _].
      * exfalso. apply (transition_round (Z.of_nat n)); [lia | exact E0].
      * cbn [orb]. lia.
Qed.

Lemma steps_steady (n : nat) :
  d_intial_high_rounds c + passing_rounds c <= Z.of_nat n ->
  let m := Z.of_nat n - (d_intial_high_rounds c + passing_rounds c) in
  steps_of_rounds c n
  = spec_passing_steps c
    + (m / d_step_high_rounds c) * spec_block_steps c
    + block_offset c (m mod d_step_high_rounds c).
Proof.
  pose proof passing_rounds_bound as Hb.
  pose proof passing_rounds_aligned as Ha.
  induction n as [| n IH]; intros Hn m.
  - assert (Hm : m = 0) by (unfold m; lia). rewrite Hm.
    rewrite Z.div_0_l, Z.mod_0_l by lia. unfold block_offset. cbn.
    rewrite passing_steps_rounds. unfold spec_initial_steps.
    replace (d_intial_high_rounds c) with 0 by lia.
    replace (passing_rounds c) with 0 by lia. lia.
  - destruct (Z.eq_dec (Z.of_nat (S n))
                (d_intial_high_rounds c + passing_rounds c)) as [E | E].
    + assert (Hm : m = 0) by (unfold m; lia). rewrite Hm.
      rewrite Z.div_0_l, Z.mod_0_l by lia. unfold block_offset. cbn [Z.eqb].
      rewrite steps_transition by lia. rewrite passing_steps_rounds. lia.
    + rewrite steps_of_rounds_succ. rewrite IH by lia.
      set (m0 := Z.of_nat n - (d_intial_high_rounds c + passing_rounds c)).
      assert (Hm : m = m0 + 1) by (unfold m, m0; lia).
      assert (Hm0 : 0 <= m0) by (unfold m0; lia).
      assert (Hmod : Z.of_nat n mod d_step_high_rounds c
                     = m0 mod d_step_high_rounds c).
      { replace (Z.of_nat n)
          with (m0 + (d_intial_high_rounds c + passing_rounds c))
          by (unfold m0; lia).
        rewrite <- Z.add_mod_idemp_r, Ha, Z.add_0_r by lia. reflexivity. }
      unfold round_length.
      destruct (Z.ltb_spec (Z.of_nat n) (d_intial_high_rounds c)); [lia |].
      cbn [orb]. rewrite Hmod, Hm.
      pose proof (Z.mod_pos_bound m0 (d_step_high_rounds c) ltac:(lia)) as Hr0.
      pose proof (Z.div_mod m0 (d_step_high_rounds c) ltac:(lia)) as Hd0.
      set (a := m0 / d_step_high_rounds c) in *.
      set (r := m0 mod d_step_high_rounds c) in *.
      destruct (Z.eq_dec r (d_step_high_rounds c - 1)) as [Er | Er].
      * (* the last round of the block *)
        assert (Hq : (m0 + 1) / d_step_high_rounds c = a + 1).
        { symmetry. apply (Z.div_unique _ _ _ 0); lia. }
        assert (Hrr : (m0 + 1) mod d_step_high_rounds c = 0).
        { symmetry. apply (Z.mod_unique _ _ (a + 1)); lia. }
        rewrite Hq, Hrr. unfold block_offset, spec_block_steps.
        cbn [Z.eqb].
        destruct (Z.eqb_spec r 0); nia.
      * assert (Hq : (m0 + 1) / d_step_high_rounds c = a).
        { symmetry. apply (Z.div_unique _ _ _ (r + 1)); lia. }
        assert (Hrr : (m0 + 1) mod d_step_high_rounds c = r + 1).
        { symmetry. apply (Z.mod_unique _ _ a); lia. }
        rewrite Hq, Hrr. unfold block_offset.
        destruct (Z.eqb_spec (r + 1) 0); [lia |].
        destruct (Z.eqb_spec r 0); nia.
Qed.

Lemma succ_mod_last (k j : Z) :
  1 <= k -> 0 <= j < k -> ((j + 1) mod k =? 0) = (j =? k - 1).
Proof.
  intros Hk Hj. destruct (Z.eqb_spec j (k - 1)) as [E | E].
  - subst j. replace (k - 1 + 1) with k by lia.
    rewrite Z.mod_same by lia. reflexivity.
  - rewrite Z.mod_small by lia. apply Z.eqb_neq. lia.
Qed.

(** Inside the round of a generator iteration, the scheduler trains the
    discriminator alone on every step but the last, where it trains
    both. *)
Lemma round_decision (n : nat) (j : Z) :
  0 <= j < round_length c (Z.of_nat n) ->
  spec_update_generator c (steps_of_rounds c n + j)
  = (j =? round_length c (Z.of_nat n) - 1).
Proof.
  pose proof passing_rounds_bound as Hb.
  pose proof passing_rounds_aligned as Ha.
  intros Hj. unfold spec_update_generator.
  destruct (Z.lt_ge_cases (Z.of_nat n) (d_intial_high_rounds c)) as [H1 | H1].
  - (* an initial high round *)
    rewrite steps_warmup by lia.
    assert (Hl : round_length c (Z.of_nat n) = d_high_iters c).
    { unfold round_length.
      destruct (Z.ltb_spec (Z.of_nat n) (d_intial_high_rounds c)); [| lia].
      reflexivity. }
    rewrite Hl in *.
    destruct (Z.ltb_spec (Z.of_nat n * d_high_iters c + j)
                (spec_initial_steps c)) as [L | L];
      [| unfold spec_initial_steps in L; nia].
    rewrite <- Z.add_assoc, Z.add_comm, Z.mod_add by lia.
    now apply succ_mod_last.
  - destruct (Z.lt_ge_cases (Z.of_nat n)
                (d_intial_high_rounds c + passing_rounds c)) as [H2 | H2].
    + (* a round of the transition *)
      rewrite steps_transition by lia.
      assert (Hl : round_length c (Z.of_nat n) = d_iters c).
      { unfold round_length.
        destruct (Z.ltb_spec (Z.of_nat n) (d_intial_high_rounds c)); [lia |].
        destruct (Z.eqb_spec (Z.of_nat n mod d_step_high_rounds c) 0)
          as [E0 | _]; [| reflexivity].
        exfalso. apply (transition_round (Z.of_nat n)); [lia | exact E0]. }
      rewrite Hl in *.
      set (k := Z.of_nat n - d_intial_high_rounds c) in *.
      destruct (Z.ltb_spec (spec_initial_steps c + k * d_iters c + j)
                  (spec_initial_steps c)) as [L | L]; [nia |].
      destruct (Z.ltb_spec (spec_initial_steps c + k * d_iters c + j)
                  (spec_passing_steps c)) as [L2 | L2];
        [| rewrite passing_steps_rounds in L2; nia].
      replace (spec_initial_steps c + k * d_iters c + j
               - spec_initial_steps c) with (j + k * d_iters c) by lia.
      rewrite Z.mod_add, (Z.mod_small j) by lia.
      now apply succ_mod_last.
    + (* a round of a block *)
      pose proof (steps_steady n H2) as Hs. cbv zeta in Hs. rewrite Hs.
      set (m := Z.of_nat n - (d_intial_high_rounds c + passing_rounds c)) in *.
      assert (Hm : 0 <= m) by (unfold m; lia).
      assert (Hmod : Z.of_nat n mod d_step_high_rounds c
                     = m mod d_step_high_rounds c).
      { replace (Z.of_nat n)
          with (m + (d_intial_high_rounds c + passing_rounds c))
          by (unfold m; lia).
        rewrite <- Z.add_mod_idemp_r, Ha, Z.add_0_r by lia. reflexivity. }
      pose proof (Z.mod_pos_bound m (d_step_high_rounds c) ltac:(lia)) as Hr0.
      assert (Ha0 : 0 <= m / d_step_high_rounds c)
        by (apply Z.div_pos; lia).
      set (a := m / d_step_high_rounds c) in *.
      set (r := m mod d_step_high_rounds c) in *.
      assert (Hl : round_length c (Z.of_nat n)
                   = if r =? 0 then d_high_iters c else d_iters c).
      { unfold round_length. rewrite Hmod.
        destruct (Z.ltb_spec (Z.of_nat n) (d_intial_high_rounds c)); [lia |].
        reflexivity. }
      rewrite Hl in *.
      assert (HB : 1 <= spec_block_steps c)
        by (unfold spec_block_steps; nia).
      assert (Hoff : 0 <= block_offset c r + j < spec_block_steps c).
      { unfold block_offset, spec_block_steps in *.
        destruct (Z.eqb_spec r 0); nia. }
      assert (Hp : 0 <= spec_initial_steps c
                   /\ spec_initial_steps c <= spec_passing_steps c).
      { rewrite passing_steps_rounds. unfold spec_initial_steps. nia. }
      set (s := spec_passing_steps c + a * spec_block_steps c
                + block_offset c r + j).
      destruct (Z.ltb_spec s (spec_initial_steps c)) as [L | L];
        [unfold s in L; nia |].
      destruct (Z.ltb_spec s (spec_passing_steps c)) as [L2 | L2];
        [unfold s in L2; nia |].
      replace (s - spec_passing_steps c)
        with (block_offset c r + j + a * spec_block_steps c)
        by (unfold s; lia).
      rewrite Z.mod_add, Z.mod_small by lia.
      unfold block_offset in *.
      destruct (Z.eqb_spec r 0) as [Er | Er].
      * destruct (Z.eqb_spec j (d_high_iters c - 1)) as [Ej | Ej].
        -- subst j.
           replace (0 + (d_high_iters c - 1) + 1 - d_high_iters c)
             with 0 by lia.
           rewrite Z.mod_0_l by lia.
           destruct (Z.leb_spec (d_high_iters c)
                       (0 + (d_high_iters c - 1) + 1)); [reflexivity | lia].
        -- destruct (Z.leb_spec (d_high_iters c) (0 + j + 1));
             [lia | reflexivity].
      * destruct (Z.leb_spec (d_high_iters c)
                    (d_high_iters c + (r - 1) * d_iters c + j + 1));
          [| nia].
        cbn [andb].
        replace (d_high_iters c + (r - 1) * d_iters c + j + 1
                 - d_high_iters c)
          with (j + 1 + (r - 1) * d_iters c) by lia.
        rewrite Z.mod_add by lia.
        now apply succ_mod_last.
Qed.

Lemma round_length_pos (g : Z) : 1 <= round_length c g.
Proof. unfold round_length. now destruct (_ || _). Qed.

Lemma steps_of_rounds_mono (n k : nat) :
  steps_of_rounds c n <= steps_of_rounds c (n + k).
Proof.
  induction k as [| k IH]; [rewrite Nat.add_0_r; lia |].
  rewrite Nat.add_succ_r, steps_of_rounds_succ.
  pose proof (round_length_pos (Z.of_nat (n + k))). lia.
Qed.

Lemma step_decision_spec (s : Z) :
  step_decision c s = Ok (spec_action c s).
Proof.
  unfold step_decision. rewrite thresholds_ok by lia. cbn [res_bind].
  apply decide_spec; [exact Hi | apply block_steps_pos; auto | lia].
Qed.

Lemma decisions_app (l1 l2 : list Z) (a1 a2 : list action) :
  decisions c l1 = Ok a1 -> decisions c l2 = Ok a2 ->
  decisions c (l1 ++ l2) = Ok (a1 ++ a2).
Proof.
  revert a1. induction l1 as [| s l1 IH]; intros a1 E1 E2.
  - cbn in E1. inversion E1. exact E2.
  - cbn [decisions app] in *.
    destruct (step_decision c s) as [a |]; [| discriminate].
    cbn [res_bind] in *.
    destruct (decisions c l1) as [r |]; [| discriminate].
    cbn [res_bind] in *. inversion E1.
    now rewrite (IH r eq_refl E2).
Qed.

Lemma decisions_in_round (n k : nat) (j : Z) :
  0 <= j -> j + Z.of_nat k = round_length c (Z.of_nat n) - 1 ->
  decisions c
    (py_range (steps_of_rounds c n + j)
       (steps_of_rounds c n + round_length c (Z.of_nat n)))
  = Ok (repeat TrainD k ++ [TrainDG]).
Proof.
  revert j. induction k as [| k IH]; intros j Hj Hk.
  - rewrite py_range_cons, py_range_empty by lia.
    cbn [decisions]. rewrite step_decision_spec. cbn [res_bind repeat app].
    unfold spec_action. rewrite round_decision by lia.
    destruct (Z.eqb_spec j (round_length c (Z.of_nat n) - 1)); [| lia].
    reflexivity.
  - rewrite py_range_cons by lia.
    cbn [decisions]. rewrite step_decision_spec. cbn [res_bind].
    rewrite <- Z.add_assoc, IH by lia. cbn [res_bind repeat app].
    unfold spec_action. rewrite round_decision by lia.
    destruct (Z.eqb_spec j (round_length c (Z.of_nat n) - 1)); [lia |].
    reflexivity.
Qed.

Lemma trainings_of_round (k : nat) :
  flat_map trainings (repeat TrainD k ++ [TrainDG])
  = repeat TrainingD (S k) ++ [TrainingG].
Proof.
  rewrite flat_map_app. cbn [flat_map trainings app].
  induction k as [| k IH]; [reflexivity |].
  cbn [repeat flat_map trainings app] in *. now rewrite IH.
Qed.

Lemma reference_from (n g : nat) :
  exists acts,
    decisions c (py_range (steps_of_rounds c g) (steps_of_rounds c (g + n)))
    = Ok acts
    /\ reference_loop c (Z.of_nat g) n = Ok (flat_map trainings acts).
Proof.
  revert g. induction n as [| n IH]; intros g.
  - exists []. rewrite Nat.add_0_r, py_range_empty by lia. now split.
  - destruct (IH (S g)) as (rest & Er & El).
    pose proof (round_length_pos (Z.of_nat g)) as Hp.
    set (k := Z.to_nat (round_length c (Z.of_nat g) - 1)).
    exists ((repeat TrainD k ++ [TrainDG]) ++ rest). split.
    + rewrite <- (py_range_app _ (steps_of_rounds c (S g))).
      * apply decisions_app.
        -- rewrite steps_of_rounds_succ.
           rewrite <- (Z.add_0_r (steps_of_rounds c g)) at 1.
           apply decisions_in_round; unfold k; lia.
        -- now rewrite Nat.add_succ_r.
      * rewrite steps_of_rounds_succ. lia.
      * rewrite Nat.add_succ_r.
        apply (steps_of_rounds_mono (S g) n).
    + cbn [reference_loop]. rewrite round_iters_ok. cbn [res_bind].
      replace (Z.of_nat g + 1) with (Z.of_nat (S g)) by lia.
      rewrite El. cbn [res_bind].
      rewrite flat_map_app, trainings_of_round. unfold train_D_times.
      replace (Z.to_nat (round_length c (Z.of_nat g))) with (S k)
        by (unfold k; lia).
      now rewrite <- app_assoc.
Qed.

End ReferenceFacts.

(** ** The schedule as a whole *)

Section SchedulerExtras.

Import Scheduler Loop LoopSpec Reference Examples.

Lemma steps_of_rounds_grow (c : config) (n : nat) :
  1 <= d_iters c -> 1 <= d_high_iters c -> 1 <= d_step_high_rounds c ->
  Z.of_nat n <= steps_of_rounds c n.
Proof.
  intros Hi Hh Hr. induction n as [| n IH]; [reflexivity |].
  rewrite (steps_of_rounds_succ c Hr).
  pose proof (round_length_pos c Hi Hh (Z.of_nat n)). lia.
Qed.

(** X1: with [d_iters], [d_high_iters], [d_step_high_rounds] at least 1
    and no negative [d_intial_high_rounds], the decisions of the
    scheduler on the steps [0 .. steps_of_rounds n - 1] train the
    discriminator and the generator in the very order of the first [n]
    iterations of the loop given in the comment of [WACGAN.train]; every
    iteration takes at least one step, so that these prefixes cover
    every step. *)
Theorem scheduler_runs_commented_loop (c : config) (n : nat) :
  1 <= d_iters c -> 1 <= d_high_iters c -> 1 <= d_step_high_rounds c ->
  0 <= d_intial_high_rounds c ->
  Z.of_nat n <= steps_of_rounds c n
  /\ exists acts,
       decisions c (py_range 0 (steps_of_rounds c n)) = Ok acts
       /\ reference_loop c 0 n = Ok (flat_map trainings acts).
Proof.
  intros Hi Hh Hr HI. split; [now apply steps_of_rounds_grow |].
  exact (reference_from c Hi Hh Hr HI n 0).
Qed.

Lemma scheduler_runs_commented_loop_witness :
  exists acts,
    decisions burst_config (py_range 0 (steps_of_rounds burst_config 4))
    = Ok acts
    /\ reference_loop burst_config 0 4 = Ok (flat_map trainings acts).
Proof.
  apply (scheduler_runs_commented_loop burst_config 4); cbn; lia.
Defined.

(** X3: [passing_steps] lies a whole number of ordinary rounds after
    [initial_steps], and that number is the least one that brings the
    count of generator iterations, [d_intial_high_rounds] after the
    warm-up, to a multiple of [d_step_high_rounds]. *)
Theorem transition_reaches_next_multiple (c : config) :
  1 <= d_step_high_rounds c ->
  exists t,
    compute_thresholds c = Ok t
    /\ passing_steps t = initial_steps t + passing_rounds c * d_iters c
    /\ 0 <= passing_rounds c
    /\ (d_intial_high_rounds c + passing_rounds c) mod d_step_high_rounds c
       = 0
    /\ forall k,
         0 <= k ->
         (d_intial_high_rounds c + k) mod d_step_high_rounds c = 0 ->
         passing_rounds c <= k.
Proof.
  intros Hr. eexists. split; [apply thresholds_ok; lia |].
  cbn [passing_steps initial_steps].
  pose proof (passing_rounds_bound c Hr) as Hb.
  repeat split; [lia | now apply passing_rounds_aligned |].
  intros k Hk E.
  destruct (Z.le_gt_cases (passing_rounds c) k) as [L | L]; [exact L |].
  exfalso.
  apply (transition_round c Hr (d_intial_high_rounds c + k)); [lia | exact E].
Qed.

Lemma transition_reaches_next_multiple_witness :
  exists t,
    compute_thresholds burst_config = Ok t
    /\ passing_steps t = initial_steps t + passing_rounds burst_config * 3.
Proof.
  destruct (transition_reaches_next_multiple burst_config ltac:(cbn; lia))
    as (t & E & Hp & _).
  exists t. split; [exact E | exact Hp].
Defined.

(** X2: on a schedulable configuration the decisions from
    [passing_steps] on repeat with period [block_steps]. *)
Theorem steady_schedule_periodic (c : config) (s : Z) :
  schedulable c = true ->
  spec_passing_steps c <= s ->
  exists t,
    compute_thresholds c = Ok t
    /\ 0 < block_steps t
    /\ passing_steps t = spec_passing_steps c
    /\ step_decision c (s + block_steps t) = step_decision c s.
Proof.
  intros Hc Hs. destruct (schedulable_spec c Hc) as (Hi & Hr & Hh).
  pose proof (block_steps_pos c Hi Hr Hh) as Hb.
  pose proof (thresholds_ok c ltac:(lia)) as Ht.
  eexists. split; [exact Ht |]. cbn [block_steps passing_steps].
  repeat split; [lia |].
  unfold step_decision. rewrite Ht. cbn [res_bind]. unfold decide.
  cbn [initial_steps passing_steps block_steps].
  assert (Hip : spec_initial_steps c <= spec_passing_steps c).
  { unfold spec_passing_steps.
    pose proof (Z.mod_pos_bound
                  (d_step_high_rounds c
                   - d_intial_high_rounds c mod d_step_high_rounds c)
                  (d_step_high_rounds c) ltac:(lia)). nia. }
  destruct (Z.ltb_spec (s + spec_block_steps c) (spec_initial_steps c));
    [lia |].
  destruct (Z.ltb_spec (s + spec_block_steps c) (spec_passing_steps c));
    [lia |].
  destruct (Z.ltb_spec s (spec_initial_steps c)); [lia |].
  destruct (Z.ltb_spec s (spec_passing_steps c)); [lia |].
  rewrite !py_mod_ok by lia. cbn [res_bind].
  replace (s + spec_block_steps c - spec_passing_steps c)
    with (s - spec_passing_steps c + 1 * spec_block_steps c) by lia.
  now rewrite Z.mod_add by lia.
Qed.

Lemma steady_schedule_periodic_witness :
  step_decision burst_config (38 + 32) = step_decision burst_config 38.
Proof.
  destruct (steady_schedule_periodic burst_config 38 eq_refl
              ltac:(cbn; lia)) as (t & E & _ & _ & H).
  cbn in E. inversion E; subst t. exact H.
Defined.

(** X4: for parameters that are not negative, the scheduler decides
    every step [s >= 0] without raising exactly on the schedulable
    configurations: [d_iters >= 1], [d_step_high_rounds >= 1], and
    [d_high_iters >= 1] or else [d_step_high_rounds >= 2]. *)
Theorem scheduler_total_iff_schedulable (c : config) :
  0 <= d_iters c -> 0 <= d_high_iters c -> 0 <= d_step_high_rounds c ->
  0 <= d_intial_high_rounds c ->
  (forall s, 0 <= s -> exists a, step_decision c s = Ok a)
  <-> schedulable c = true.
Proof.
  intros Hi Hh Hr HI. split.
  - intros Htot. unfold schedulable.
    destruct (Z.leb_spec 1 (d_step_high_rounds c)) as [Hr1 | Hr0].
    2:{ exfalso. destruct (Htot 0 ltac:(lia)) as [a Ea].
        unfold step_decision, compute_thresholds in Ea.
        replace (d_step_high_rounds c) with 0 in Ea by lia.
        discriminate. }
    pose proof (thresholds_ok c ltac:(lia)) as Ht.
    pose proof (passing_rounds_bound c Hr1) as Hq.
    assert (Hp : spec_passing_steps c
                 = spec_initial_steps c + passing_rounds c * d_iters c)
      by reflexivity.
    assert (H0 : 0 <= spec_initial_steps c)
      by (unfold spec_initial_steps; nia).
    destruct (Z.leb_spec 1 (d_iters c)) as [Hi1 | Hi0].
    + cbn [andb].
      destruct (Z.leb_spec 1 (d_high_iters c)) as [Hh1 | Hh0];
        [reflexivity |].
      assert (Eh : d_high_iters c = 0) by lia. rewrite Eh. cbn [orb Z.eqb andb].
      destruct (Z.leb_spec 2 (d_step_high_rounds c)) as [Hr2 | Hr2];
        [reflexivity |].
      exfalso. assert (Er : d_step_high_rounds c = 1) by lia.
      destruct (Htot (spec_passing_steps c) ltac:(nia)) as [a Ea].
      unfold step_decision in Ea. rewrite Ht in Ea. cbn [res_bind] in Ea.
      unfold decide in Ea.
      cbn [initial_steps passing_steps block_steps] in Ea.
      destruct (Z.ltb_spec (spec_passing_steps c) (spec_initial_steps c));
        [nia |].
      rewrite Z.ltb_irrefl in Ea.
      assert (Eb : spec_block_steps c = 0)
        by (unfold spec_block_steps; rewrite Eh, Er; lia).
      rewrite Eb in Ea. discriminate.
    + exfalso. assert (Ei : d_iters c = 0) by lia.
      assert (Epi : spec_passing_steps c = spec_initial_steps c)
        by (rewrite Hp, Ei; lia).
      assert (Eb : spec_block_steps c = d_high_iters c)
        by (unfold spec_block_steps; rewrite Ei; lia).
      destruct (Z.eq_dec (d_high_iters c) 0) as [Eh | Eh].
      * destruct (Htot (spec_initial_steps c) H0) as [a Ea].
        unfold step_decision in Ea. rewrite Ht in Ea. cbn [res_bind] in Ea.
        unfold decide in Ea.
        cbn [initial_steps passing_steps block_steps] in Ea.
        rewrite Epi, Z.ltb_irrefl, Eb, Eh in Ea. discriminate.
      * destruct (Htot (spec_initial_steps c + d_high_iters c - 1)
                    ltac:(lia)) as [a Ea].
        unfold step_decision in Ea. rewrite Ht in Ea. cbn [res_bind] in Ea.
        unfold decide in Ea.
        cbn [initial_steps passing_steps block_steps] in Ea.
        rewrite Epi, Eb in Ea.
        destruct (Z.ltb_spec (spec_initial_steps c + d_high_iters c - 1)
                    (spec_initial_steps c)); [lia |].
        rewrite py_mod_ok in Ea by lia. cbn [res_bind] in Ea.
        replace (spec_initial_steps c + d_high_iters c - 1
                 - spec_initial_steps c) with (d_high_iters c - 1) in Ea
          by lia.
        rewrite Z.mod_small in Ea by lia.
        destruct (Z.ltb_spec (d_high_iters c - 1 + 1) (d_high_iters c));
          [lia |].
        rewrite Ei in Ea. discriminate.
  - intros Hc s Hs. destruct (schedulable_decide c s Hc Hs) as [Ht Hd].
    eexists. unfold step_decision. rewrite Ht. exact Hd.
Qed.

Lemma scheduler_total_iff_schedulable_witness :
  (forall s, 0 <= s -> exists a, step_decision default_config s = Ok a)
  <-> schedulable default_config = true.
Proof.
  apply (scheduler_total_iff_schedulable default_config); cbn; lia.
Defined.

End SchedulerExtras.

(** ** Whole runs: edges, checkpoints and summaries *)

Section RunExtras.

Import Scheduler Loop LoopSpec Calls Examples.

Variable load : string -> option Z -> bool * Z.
Variables num_examples batch_size : Z.
Variable a : train_args.

Lemma prologue_no_batches :
  0 <= num_examples < batch_size ->
  prologue load num_examples batch_size a
  = if load_succeeds load a then Raise ZeroDivisionError else Ok (0, 0, 0).
Proof.
  intros Hn. unfold prologue, load_succeeds.
  rewrite py_floordiv_ok, Z.div_small by lia. cbn [res_bind].
  destruct (resume a); cbn [andb fst]; [| reflexivity].
  destruct (dir_given (checkpoint_dir a)) as [d |]; cbn [fst];
    [| reflexivity].
  now destruct (fst (load d (resume_step a))).
Qed.

Lemma run_epochs_no_batches (body : Z -> M unit) (stop_epoch : Z)
    (st : loop_state) :
  1 <= stop_epoch ->
  run_epochs 0 body 0 stop_epoch st = ([], Raise ZeroDivisionError).
Proof.
  intros Hs. unfold run_epochs. rewrite py_range_cons by lia.
  cbn [for_each]. unfold bind at 1. unfold run_epoch.
  unfold bind at 1. cbn [get_step]. unfold bind at 1. reflexivity.
Qed.

Lemma run_epochs_none (nb : Z) (body : Z -> M unit)
    (start_epoch stop_epoch : Z) (st : loop_state) :
  stop_epoch <= start_epoch ->
  run_epochs nb body start_epoch stop_epoch st = ([], Ok (tt, st)).
Proof.
  intros Hs. unfold run_epochs. now rewrite py_range_empty by lia.
Qed.

(** X5: with fewer examples than one batch, [num_batches] is 0 and
    every [train] raises [ZeroDivisionError] before any update, summary or
    checkpoint, as soon as it restores a checkpoint or is asked for an
    epoch; asked for no epoch and restoring nothing, it returns, and
    [GAN.train] still saves its final checkpoint, of step 0. *)
Theorem no_batches_is_fatal (c : config) :
  0 <= num_examples < batch_size ->
  (load_succeeds load a = true \/ 1 <= num_epochs a ->
   gan_train load num_examples batch_size a = ([], Raise ZeroDivisionError)
   /\ discogan_train load num_examples batch_size a
      = ([], Raise ZeroDivisionError)
   /\ wacgan_train load num_examples batch_size c a
      = ([], Raise ZeroDivisionError))
  /\ (load_succeeds load a = false -> num_epochs a <= 0 ->
      gan_train load num_examples batch_size a
      = (if is_some (dir_given (checkpoint_dir a)) then [EvSave 0] else [],
         Ok (tt, start_state 0))
      /\ discogan_train load num_examples batch_size a
         = ([], Ok (tt, start_state 0))).
Proof.
  intros Hn. unfold gan_train, discogan_train, wacgan_train.
  rewrite (prologue_no_batches Hn). split.
  - intros Hc. destruct (load_succeeds load a); [now repeat split |].
    destruct Hc as [Hc | Hc]; [discriminate |].
    cbn [run_from].
    rewrite !(bind_ok _ _ _ _ _ _ (set_step_start _)).
    split; [| split].
    + now rewrite (bind_raise _ _ _ _ _ (run_epochs_no_batches _ _ _ Hc)).
    + now rewrite (run_epochs_no_batches _ _ _ Hc).
    + destruct (compute_thresholds c) as [t | e].
      * rewrite !(bind_ok _ _ _ _ _ _ (lift_ok _ _)).
        now rewrite (bind_raise _ _ _ _ _ (run_epochs_no_batches _ _ _ Hc)).
      * now destruct e.
  - intros Hl He. rewrite Hl. cbn [run_from].
    rewrite !(bind_ok _ _ _ _ _ _ (set_step_start _)).
    rewrite !(bind_ok _ _ _ _ _ _ (run_epochs_none _ _ _ _ _ He)).
    rewrite final_save_run, (run_epochs_none _ _ _ _ _ He).
    cbn [fst snd app step]. now split.
Qed.

Hypothesis num_batches_pos : 0 < num_examples / batch_size.

(** X6: a call whose restored step is at or beyond the end of the last
    epoch enters no epoch: it updates nothing and writes no summary;
    [GAN.train] and [WACGAN.train] only save the checkpoint of the
    restored step again, [DiscoGAN.train] does nothing at all. *)
Theorem resume_after_last_epoch (c : config) :
  num_epochs a * (num_examples / batch_size) <= resumed_step load a ->
  d_step_high_rounds c <> 0 ->
  discogan_train load num_examples batch_size a
  = ([], Ok (tt, start_state (resumed_step load a)))
  /\ gan_train load num_examples batch_size a
     = (if is_some (dir_given (checkpoint_dir a))
        then [EvSave (resumed_step load a)] else [],
        Ok (tt, start_state (resumed_step load a)))
  /\ wacgan_train load num_examples batch_size c a
     = (if is_some (dir_given (checkpoint_dir a))
        then [EvSave (resumed_step load a)] else [],
        Ok (tt, start_state (resumed_step load a))).
Proof.
  intros Hs Hr.
  assert (He : num_epochs a
               <= resumed_step load a / (num_examples / batch_size))
    by (apply Z.div_le_lower_bound; lia).
  unfold gan_train, discogan_train, wacgan_train.
  rewrite (prologue_ok load num_examples batch_size a num_batches_pos).
  cbn [run_from].
  rewrite !(bind_ok _ _ _ _ _ _ (set_step_start _)).
  rewrite (thresholds_ok c Hr).
  rewrite !(bind_ok _ _ _ _ _ _ (lift_ok _ _)).
  rewrite !(bind_ok _ _ _ _ _ _ (run_epochs_none _ _ _ _ _ He)).
  rewrite final_save_run, (run_epochs_none _ _ _ _ _ He).
  cbn [fst snd app step]. now repeat split.
Qed.

Lemma in_py_range (x lo hi : Z) : In x (py_range lo hi) <-> lo <= x < hi.
Proof.
  unfold py_range. rewrite in_map_iff. split.
  - intros (i & E & Hi). apply in_seq in Hi. lia.
  - intros H. exists (Z.to_nat (x - lo)). split; [lia |].
    apply in_seq. lia.
Qed.

Lemma saves_app (t1 t2 : list event) :
  saves (t1 ++ t2) = saves t1 ++ saves t2.
Proof. apply flat_map_app. Qed.

Lemma in_saved_steps (lo hi s : Z) :
  In s (flat_map (fun x => if save_cond a (x + 1) then [x + 1] else [])
          (py_range lo hi))
  <-> is_some (dir_given (checkpoint_dir a)) = true
      /\ save_step a <> 0 /\ s mod save_step a = 0 /\ lo < s <= hi.
Proof.
  rewrite in_flat_map. unfold save_cond. split.
  - intros (x & Hx & Hin). apply in_py_range in Hx.
    destruct (is_some (dir_given (checkpoint_dir a))); [| destruct Hin].
    destruct (Z.eqb_spec (save_step a) 0); [destruct Hin |].
    destruct (Z.eqb_spec ((x + 1) mod save_step a) 0); [| destruct Hin].
    destruct Hin as [E | []]. subst s. repeat split; auto; lia.
  - intros (Hd & Hn & Hm & Hr). exists (s - 1). split.
    + apply in_py_range. lia.
    + replace (s - 1 + 1) with s by lia. rewrite Hd, Hm.
      destruct (Z.eqb_spec (save_step a) 0); [contradiction |].
      now left.
Qed.

(** X8: the checkpoints [DiscoGAN.train] saves are exactly the
    multiples of [save_step] after the starting step and up to the last
    step of the last epoch, provided a directory is given and
    [save_step] is not 0; [GAN.train] saves those and the final step. *)
Theorem checkpoint_steps (s : Z) :
  (In s (saves (fst (discogan_train load num_examples batch_size a)))
   <-> is_some (dir_given (checkpoint_dir a)) = true
       /\ save_step a <> 0 /\ s mod save_step a = 0
       /\ resumed_step load a < s
          <= num_epochs a * (num_examples / batch_size))
  /\ (In s (saves (fst (gan_train load num_examples batch_size a)))
      <-> is_some (dir_given (checkpoint_dir a)) = true
          /\ ((save_step a <> 0 /\ s mod save_step a = 0
               /\ resumed_step load a < s
                  <= num_epochs a * (num_examples / batch_size))
              \/ s = Z.max (resumed_step load a)
                       (num_epochs a * (num_examples / batch_size)))).
Proof.
  destruct (joint_train_total load num_examples batch_size a num_batches_pos)
    as (tr & st & Ed & Eg & Hs & Hp).
  apply saves_of_steps with (act := fun _ => TrainDG) in Hp.
  rewrite Ed, Eg. cbn [fst]. rewrite saves_app, Hp. split.
  - apply in_saved_steps.
  - rewrite in_app_iff, in_saved_steps, Hs.
    destruct (is_some (dir_given (checkpoint_dir a))); cbn [saves flat_map In app].
    + intuition.
    + intuition discriminate.
Qed.

Lemma last_final_save (tr : list event) (s : Z) :
  last (saves (tr ++ [EvSave s])) 0 = s.
Proof. rewrite saves_app. cbn [saves flat_map app]. apply last_last. Qed.

(** X7: a run of [first_epochs] epochs ends with a checkpoint of the
    step [first_epochs * num_batches]; the run restored from it takes up
    where the first one stopped: the updates of the two, one after the
    other, are the updates of a single run of all the epochs, for
    [GAN.train] and, on a schedulable configuration, for [WACGAN.train],
    and both ways end with a checkpoint of the same step. *)
Theorem interrupted_run_composes (c : config) (d : string) (first_epochs : Z) :
  schedulable c = true ->
  dir_given (checkpoint_dir a) = Some d ->
  0 <= first_epochs <= num_epochs a ->
  load d (resume_step a)
  = (true, first_epochs * (num_examples / batch_size)) ->
  let first := with_resume false (with_num_epochs first_epochs a) in
  let second := with_resume true a in
  let whole := with_resume false a in
  last (saves (fst (gan_train load num_examples batch_size first))) 0
  = first_epochs * (num_examples / batch_size)
  /\ updates (fst (gan_train load num_examples batch_size first))
     ++ updates (fst (gan_train load num_examples batch_size second))
     = updates (fst (gan_train load num_examples batch_size whole))
  /\ last (saves (fst (wacgan_train load num_examples batch_size c first))) 0
     = first_epochs * (num_examples / batch_size)
  /\ updates (fst (wacgan_train load num_examples batch_size c first))
     ++ updates (fst (wacgan_train load num_examples batch_size c second))
     = updates (fst (wacgan_train load num_examples batch_size c whole))
  /\ last (saves (fst (wacgan_train load num_examples batch_size c second))) 0
     = last (saves (fst (wacgan_train load num_examples batch_size c whole))) 0.
Proof.
  intros Hc Hd He Hl first second whole.
  assert (Hnb := num_batches_pos).
  assert (R1 : resumed_step load first = 0) by reflexivity.
  assert (R3 : resumed_step load whole = 0) by reflexivity.
  assert (R2 : resumed_step load second
               = first_epochs * (num_examples / batch_size)).
  { unfold resumed_step, second.
    cbn [with_resume resume checkpoint_dir resume_step].
    now rewrite Hd, Hl. }
  assert (D1 : is_some (dir_given (checkpoint_dir first)) = true)
    by (cbn [first with_resume with_num_epochs checkpoint_dir];
        now rewrite Hd).
  assert (D2 : is_some (dir_given (checkpoint_dir second)) = true)
    by (cbn [second with_resume checkpoint_dir]; now rewrite Hd).
  assert (D3 : is_some (dir_given (checkpoint_dir whole)) = true)
    by (cbn [whole with_resume checkpoint_dir]; now rewrite Hd).
  assert (N1 : num_epochs first = first_epochs) by reflexivity.
  assert (N2 : num_epochs second = num_epochs a) by reflexivity.
  assert (N3 : num_epochs whole = num_epochs a) by reflexivity.
  destruct (joint_train_total load num_examples batch_size first Hnb)
    as (g1 & sg1 & _ & G1 & Sg1 & Pg1).
  destruct (joint_train_total load num_examples batch_size second Hnb)
    as (g2 & sg2 & _ & G2 & Sg2 & Pg2).
  destruct (joint_train_total load num_examples batch_size whole Hnb)
    as (g3 & sg3 & _ & G3 & Sg3 & Pg3).
  destruct (wacgan_train_total load num_examples batch_size first Hnb c Hc
              ltac:(rewrite R1; lia)) as (w1 & sw1 & W1 & Sw1 & Pw1).
  destruct (wacgan_train_total load num_examples batch_size second Hnb c Hc
              ltac:(rewrite R2; nia)) as (w2 & sw2 & W2 & Sw2 & Pw2).
  destruct (wacgan_train_total load num_examples batch_size whole Hnb c Hc
              ltac:(rewrite R3; lia)) as (w3 & sw3 & W3 & Sw3 & Pw3).
  apply updates_of_steps in Pg1, Pg2, Pg3, Pw1, Pw2, Pw3.
  rewrite G1, G2, G3, W1, W2, W3. cbn [fst].
  rewrite !updates_final_save, D1, D2, D3. cbv iota.
  rewrite !last_final_save.
  rewrite Pg1, Pg2, Pg3, Pw1, Pw2, Pw3, Sg1, Sw1, Sw2, Sw3.
  rewrite R1, R2, R3, N1, N2, N3, <- !map_app.
  assert (0 <= first_epochs * (num_examples / batch_size)
          <= num_epochs a * (num_examples / batch_size)) by nia.
  rewrite py_range_app by lia.
  repeat split; lia.
Qed.

Lemma summaries_batch_events (act : action) (s : Z) :
  summaries (batch_events a act s)
  = if writer_attached a && action_eqb act TrainDG then [s] else [].
Proof.
  unfold batch_events, after_events, summaries.
  cbn [flat_map app]. rewrite flat_map_app, flat_map_app.
  destruct act, (writer_attached a), (save_cond _ _), (sample_cond _ _);
    reflexivity.
Qed.

Lemma summaries_app (t1 t2 : list event) :
  summaries (t1 ++ t2) = summaries t1 ++ summaries t2.
Proof. apply flat_map_app. Qed.

Lemma summaries_of_updates (act : Z -> action) (l : list Z) :
  flat_map (fun s => summaries (batch_events a (act s) s)) l
  = if writer_attached a
    then map fst
           (filter (fun p => action_eqb (snd p) TrainDG)
              (map (fun s => (s, act s)) l))
    else [].
Proof.
  induction l as [| s l IH].
  - now destruct (writer_attached a).
  - cbn [flat_map map filter snd]. rewrite IH, summaries_batch_events.
    destruct (writer_attached a); [| reflexivity]. cbn [andb].
    now destruct (action_eqb (act s) TrainDG).
Qed.

(** X9: with a writer attached, a run of [WACGAN.train] writes one
    summary for each of its joint updates, tagged with the step of the
    update and in their order, and none for a discriminator-only update;
    a run of [GAN.train] writes one for every update; without a writer
    neither writes any. *)
Theorem summary_steps (c : config) :
  schedulable c = true -> 0 <= resumed_step load a ->
  summaries (fst (wacgan_train load num_examples batch_size c a))
  = (if writer_attached a
     then map fst
            (filter (fun p => action_eqb (snd p) TrainDG)
               (updates
                  (fst (wacgan_train load num_examples batch_size c a))))
     else [])
  /\ summaries (fst (gan_train load num_examples batch_size a))
     = (if writer_attached a
        then map fst
               (updates (fst (gan_train load num_examples batch_size a)))
        else []).
Proof.
  intros Hc H0.
  destruct (joint_train_total load num_examples batch_size a num_batches_pos)
    as (g & sg & _ & G & _ & Pg).
  destruct (wacgan_train_total load num_examples batch_size a
              num_batches_pos c Hc H0) as (w & sw & W & _ & Pw).
  pose proof (Pg _ (fun e => match e with EvSummary s => [s] | _ => [] end)
                (fun _ _ _ => eq_refl)) as Sg.
  pose proof (Pw _ (fun e => match e with EvSummary s => [s] | _ => [] end)
                (fun _ _ _ => eq_refl)) as Sw.
  apply updates_of_steps in Pg, Pw.
  rewrite G, W. cbn [fst].
  rewrite !summaries_app, !updates_final_save, Pg, Pw.
  assert (Hf : forall s,
             summaries
               (if is_some (dir_given (checkpoint_dir a))
                then [EvSave s] else []) = [])
    by (intros s; destruct (is_some (dir_given (checkpoint_dir a)));
        reflexivity).
  rewrite !Hf, !app_nil_r.
  change (summaries g) with
    (flat_map (fun e => match e with EvSummary s => [s] | _ => [] end) g).
  change (summaries w) with
    (flat_map (fun e => match e with EvSummary s => [s] | _ => [] end) w).
  rewrite Sg, Sw. split.
  - apply (summaries_of_updates (spec_action c)).
  - rewrite (summaries_of_updates (fun _ => TrainDG)).
    destruct (writer_attached a); [| reflexivity].
    f_equal.
    generalize (py_range (resumed_step load a)
                  (num_epochs a * (num_examples / batch_size))).
    intros l. induction l as [| x l IH]; [reflexivity |].
    cbn [map filter snd action_eqb]. now rewrite IH.
Qed.

End RunExtras.

Section RunWitnesses.

Import Scheduler Loop LoopSpec Calls Examples.

Lemma no_batches_is_fatal_witness :
  gan_train load_nothing 100 128 call = ([], Raise ZeroDivisionError).
Proof.
  apply (no_batches_is_fatal load_nothing 100 128 call burst_config).
  - lia.
  - right. cbn. lia.
Defined.

Lemma resume_after_last_epoch_witness :
  discogan_train (load_at 30) 1280 128 call = ([], Ok (tt, start_state 30)).
Proof.
  apply (resume_after_last_epoch (load_at 30) 1280 128 call eq_refl
           burst_config);
    cbn; lia.
Defined.

Lemma checkpoint_steps_witness :
  In 30 (saves (fst (gan_train load_nothing 1280 128 call)))
  <-> is_some (dir_given (checkpoint_dir call)) = true
      /\ ((save_step call <> 0 /\ 30 mod save_step call = 0
           /\ resumed_step load_nothing call < 30
              <= num_epochs call * (1280 / 128))
          \/ 30 = Z.max (resumed_step load_nothing call)
                    (num_epochs call * (1280 / 128))).
Proof.
  apply (checkpoint_steps load_nothing 1280 128 call eq_refl 30).
Defined.

Lemma interrupted_run_composes_witness :
  updates (fst (wacgan_train (load_at 20) 1280 128 burst_config
                  (with_resume false (with_num_epochs 2 call))))
  ++ updates (fst (wacgan_train (load_at 20) 1280 128 burst_config
                     (with_resume true call)))
  = updates (fst (wacgan_train (load_at 20) 1280 128 burst_config
                    (with_resume false call))).
Proof.
  destruct (interrupted_run_composes (load_at 20) 1280 128 call eq_refl
              burst_config "checkpoints"%string 2 eq_refl eq_refl
              ltac:(cbn; lia) eq_refl)
    as (_ & _ & _ & H & _).
  exact H.
Defined.

Lemma summary_steps_witness :
  summaries (fst (wacgan_train load_nothing 1280 128 burst_config call))
  = map fst
      (filter (fun p => action_eqb (snd p) TrainDG)
         (updates (fst (wacgan_train load_nothing 1280 128 burst_config
                          call)))).
Proof.
  apply (summary_steps load_nothing 1280 128 call eq_refl burst_config);
    reflexivity || (cbn; lia).
Defined.

End RunWitnesses.

(** ** Feature matching and sampling *)

Section FeatureFacts.

Import Losses FeatureMatching.

Context {F : Type} `{Scalar F}.

Lemma combine_longer_l {A B : Type} (l extra : list A) (l' : list B) :
  List.length l = List.length l' ->
  combine (l ++ extra) l' = combine l l'.
Proof.
  revert l'. induction l as [| x l IH]; intros [| y l'] E;
    try discriminate; cbn [combine app].
  - now destruct extra.
  - f_equal. apply IH. now inversion E.
Qed.

Lemma combine_longer_r {A B : Type} (l : list A) (l' extra : list B) :
  List.length l = List.length l' ->
  combine l (l' ++ extra) = combine l l'.
Proof.
  revert l'. induction l as [| x l IH]; intros [| y l'] E;
    try discriminate; cbn [combine app]; [reflexivity |].
  f_equal. apply IH. now inversion E.
Qed.

(** X10: [DiscoGAN.feats_loss] is 0 when either list of features is
    empty, and the features one list has beyond the length of the other
    do not count: they are dropped without an error. *)
Theorem feats_loss_truncates (real_feats fake_feats extra : list mat) :
  List.length real_feats = List.length fake_feats ->
  feats_loss real_feats [] = zero
  /\ feats_loss [] fake_feats = zero
  /\ feats_loss (real_feats ++ extra) fake_feats
     = feats_loss real_feats fake_feats
  /\ feats_loss real_feats (fake_feats ++ extra)
     = feats_loss real_feats fake_feats.
Proof.
  intros E. unfold feats_loss. repeat split.
  - now rewrite combine_nil.
  - now rewrite combine_longer_l.
  - now rewrite combine_longer_r.
Qed.

End FeatureFacts.

Section FeatureWitness.

Import Losses FeatureMatching Binary32.

Lemma feats_loss_truncates_witness :
  feats_loss ([real_batch] ++ [fake_batch]) [fake_batch]
  = feats_loss [real_batch] [fake_batch].
Proof.
  apply (feats_loss_truncates (H := scalar) [real_batch] [fake_batch]
           [fake_batch]).
  reflexivity.
Defined.

End FeatureWitness.

Section SamplerFacts.

Import Sampler.

Variables L C : Type.
Variable sample_z : Z -> L.
Variable sample_c : Z -> C.

(** X11: every path of [GAN.sample] and of [WACGAN.sample] feeds
    [is_training = False].  [GAN.sample] feeds the caller's [z] whenever
    one is given, before looking at [num_samples].  [WACGAN.sample]
    feeds the caller's [z] and [c] only when both are given: a [z]
    without a [c], or a [c] without a [z], is ignored, and the call
    behaves as if neither had been passed. *)
Theorem sample_feeds (num_samples : option Z) (z : option L) (c : option C) :
  feed_is_training (gan_sample L C sample_z num_samples z) = Some false
  /\ feed_is_training (wacgan_sample L C sample_z sample_c num_samples z c)
     = Some false
  /\ (forall v, feed_z (gan_sample L C sample_z num_samples (Some v)) = Some v)
  /\ (forall v w,
        wacgan_sample L C sample_z sample_c num_samples (Some v) (Some w)
        = Feed (Some false) (Some v) (Some w))
  /\ wacgan_sample L C sample_z sample_c num_samples z None
     = wacgan_sample L C sample_z sample_c num_samples None None
  /\ wacgan_sample L C sample_z sample_c num_samples None c
     = wacgan_sample L C sample_z sample_c num_samples None None.
Proof.
  destruct z, c, num_samples; repeat split.
Qed.

End SamplerFacts.

(** ** The sizes of the convolutional generators *)

Section BuilderFacts.

Import Loop Builders.

Lemma ceil_div_one (a : Z) : ceil_div a 1 = a.
Proof. unfold ceil_div. rewrite Z.div_1_r. lia. Qed.

Lemma ceil_div_pos (a b : Z) : 1 <= a -> 0 < b -> 1 <= ceil_div a b.
Proof.
  intros Ha Hb. unfold ceil_div.
  pose proof (Z.div_lt_upper_bound (- a) b 0 Hb ltac:(lia)). lia.
Qed.

Lemma ceil_div_halves (a b : Z) :
  0 <= a -> 0 < b -> grows (ceil_div a (2 * b)) (ceil_div a b).
Proof.
  intros Ha Hb. unfold grows, ceil_div.
  pose proof (Z.div_mod (- a) b ltac:(lia)) as E1.
  pose proof (Z.mod_pos_bound (- a) b Hb) as B1.
  pose proof (Z.div_mod (- a) (2 * b) ltac:(lia)) as E2.
  pose proof (Z.mod_pos_bound (- a) (2 * b) ltac:(lia)) as B2.
  set (q1 := - a / b) in *. set (q2 := - a / (2 * b)) in *.
  set (r1 := (- a) mod b) in *. set (r2 := (- a) mod (2 * b)) in *.
  assert (Hd : b * (q1 - 2 * q2) = r2 - r1) by lia.
  assert (H0 : 0 <= q1 - 2 * q2) by nia.
  assert (H1 : q1 - 2 * q2 <= 1) by nia.
  assert (H2 : q2 <= 0) by nia.
  assert (H3 : q2 = 0 -> q1 = 0) by nia.
  lia.
Qed.

Lemma resize_dim_grows (min_size target k : Z) :
  1 <= target -> 0 <= k ->
  grows (resize_dim min_size target (k + 1)) (resize_dim min_size target k).
Proof.
  intros Ht Hk. unfold resize_dim.
  rewrite Z.pow_add_r, Z.pow_1_r, (Z.mul_comm (2 ^ k) 2) by lia.
  pose proof (Z.pow_pos_nonneg 2 k ltac:(lia) Hk) as Hp.
  pose proof (ceil_div_halves target (2 ^ k) ltac:(lia) Hp) as [G1 G2].
  pose proof (ceil_div_pos target (2 * 2 ^ k) Ht ltac:(lia)).
  unfold grows. lia.
Qed.

Lemma resize_dim_last (min_size target : Z) :
  resize_dim min_size target 0 = Z.max min_size target.
Proof. unfold resize_dim. now rewrite Z.pow_0_r, ceil_div_one. Qed.

(** Consecutive elements of the image of a range. *)
Lemma sorted_map_range {A : Type} (R : A -> A -> Prop) (f : Z -> A)
    (lo hi : Z) :
  (forall i, lo <= i -> i + 1 < hi -> R (f i) (f (i + 1))) ->
  Sorted R (map f (py_range lo hi)).
Proof.
  intros Hstep.
  remember (Z.to_nat (hi - lo)) as n eqn:En.
  revert lo En Hstep. induction n as [| n IH]; intros lo En Hstep.
  - rewrite py_range_empty by lia. constructor.
  - rewrite py_range_cons by lia. cbn [map]. constructor.
    + apply IH; [lia |]. intros i Hi Hlt. apply Hstep; lia.
    + destruct (Z.lt_ge_cases (lo + 1) hi) as [L | L].
      * rewrite py_range_cons by lia. cbn [map]. constructor.
        apply Hstep; lia.
      * rewrite py_range_empty by lia. constructor.
Qed.

Lemma last_map_range {A : Type} (f : Z -> A) (lo hi : Z) (d : A) :
  lo < hi -> last (map f (py_range lo hi)) d = f (hi - 1).
Proof.
  intros H. rewrite <- (py_range_app lo (hi - 1) hi) by lia.
  rewrite (py_range_cons (hi - 1)), (py_range_empty (hi - 1 + 1)) by lia.
  rewrite map_app. cbn [map]. apply last_last.
Qed.

Lemma removelast_map_range {A : Type} (f : Z -> A) (lo hi : Z) :
  lo < hi ->
  removelast (map f (py_range lo hi)) = map f (py_range lo (hi - 1)).
Proof.
  intros H. rewrite <- (py_range_app lo (hi - 1) hi) by lia.
  rewrite (py_range_cons (hi - 1)), (py_range_empty (hi - 1 + 1)) by lia.
  rewrite map_app. cbn [map]. apply removelast_last.
Qed.

(** X12: [build_resize_conv_generator] fails its assertion exactly for
    [num_layers <= 1] and [build_conv_resize_conv_generator] exactly for
    [num_layers <= 0].  Otherwise, for positive target sizes, the former
    has [num_layers - 1] resize layers after the fully connected one and
    the latter [num_layers]; heights and widths grow, and at most
    double, from each layer to the next, and the last layer has height
    [max(min_size, target_h)] and width [max(min_size, target_w)], with
    [target_c] channels in the former, whose channels halve from layer to
    layer before that: the flattened output has the size of
    [output_shape] whenever neither target is below [min_size]. *)
Theorem generator_sizes
    (target_h target_w target_c min_size dim num_layers : Z) :
  1 <= target_h -> 1 <= target_w ->
  (resize_conv_generator_shapes (target_h, target_w, target_c) min_size dim
     num_layers = None <-> num_layers <= 1)
  /\ (conv_resize_conv_generator_sizes (target_h, target_w, target_c)
        min_size num_layers = None <-> num_layers <= 0)
  /\ (forall fc layers,
        resize_conv_generator_shapes (target_h, target_w, target_c) min_size
          dim num_layers = Some (fc, layers) ->
        Z.of_nat (List.length layers) = num_layers - 1
        /\ last layers fc
           = Shape (Z.max min_size target_h) (Z.max min_size target_w)
               target_c
        /\ Sorted (fun s s' => grows (height s) (height s')
                               /\ grows (width s) (width s'))
             (fc :: layers)
        /\ Sorted (fun s s' => channels s = 2 * channels s')
             (fc :: removelast layers)
        /\ (min_size <= target_h -> min_size <= target_w ->
            height (last layers fc) * width (last layers fc)
            * channels (last layers fc)
            = output_size (target_h, target_w, target_c)))
  /\ (forall sizes,
        conv_resize_conv_generator_sizes (target_h, target_w, target_c)
          min_size num_layers = Some sizes ->
        Z.of_nat (List.length sizes) = num_layers
        /\ last sizes (0, 0)
           = (Z.max min_size target_h, Z.max min_size target_w)
        /\ Sorted (fun s s' => grows (fst s) (fst s')
                               /\ grows (snd s) (snd s'))
             sizes).
Proof.
  intros Hh Hw.
  unfold resize_conv_generator_shapes, conv_resize_conv_generator_sizes.
  split; [| split; [| split]].
  - destruct (Z.gtb_spec num_layers 1); split; intros; lia || discriminate || reflexivity.
  - destruct (Z.gtb_spec num_layers 0); split; intros; lia || discriminate || reflexivity.
  - intros fc layers E.
    destruct (Z.gtb_spec num_layers 1) as [Hn | Hn]; [| discriminate].
    inversion E as [[Efc El]]. clear E. subst fc layers.
    set (layer := fun i : Z =>
           Shape (resize_dim min_size target_h (num_layers - 2 - i))
             (resize_dim min_size target_w (num_layers - 2 - i))
             (if negb (i =? num_layers - 2)
              then dim * 2 ^ (num_layers - 3 - i) else target_c)).
    assert (Hlast : last (map layer (py_range 0 (num_layers - 1)))
                      (Shape (resize_dim min_size target_h (num_layers - 1))
                         (resize_dim min_size target_w (num_layers - 1))
                         (dim * 2 ^ (num_layers - 2)))
                    = Shape (Z.max min_size target_h)
                        (Z.max min_size target_w) target_c).
    { rewrite last_map_range by lia. unfold layer.
      replace (num_layers - 2 - (num_layers - 1 - 1)) with 0 by lia.
      rewrite !resize_dim_last.
      replace (num_layers - 1 - 1) with (num_layers - 2) by lia.
      now rewrite Z.eqb_refl. }
    split; [| split; [| split; [| split]]].
    + rewrite length_map, py_range_length. lia.
    + exact Hlast.
    + constructor.
      * apply sorted_map_range. intros i Hi Hlt. unfold layer.
        cbn [height width].
        replace (num_layers - 2 - i) with (num_layers - 2 - (i + 1) + 1)
          by lia.
        split; apply resize_dim_grows; lia.
      * rewrite py_range_cons by lia. cbn [map]. constructor.
        unfold layer. cbn [height width].
        replace (num_layers - 1) with (num_layers - 2 - 0 + 1) by lia.
        split; apply resize_dim_grows; lia.
    + rewrite removelast_map_range by lia. constructor.
      * apply sorted_map_range. intros i Hi Hlt. unfold layer.
        cbn [channels].
        destruct (Z.eqb_spec i (num_layers - 2)); [lia |].
        destruct (Z.eqb_spec (i + 1) (num_layers - 2)); [lia |].
        cbn [negb].
        replace (num_layers - 3 - i) with (num_layers - 3 - (i + 1) + 1)
          by lia.
        rewrite Z.pow_add_r, Z.pow_1_r by lia. lia.
      * destruct (Z.lt_ge_cases 0 (num_layers - 1 - 1)) as [L | L].
        -- rewrite py_range_cons by lia. cbn [map]. constructor.
           unfold layer. cbn [channels].
           destruct (Z.eqb_spec 0 (num_layers - 2)); [lia |]. cbn [negb].
           replace (num_layers - 2) with (num_layers - 3 - 0 + 1) at 1
             by lia.
           rewrite Z.pow_add_r, Z.pow_1_r by lia. lia.
        -- rewrite py_range_empty by lia. constructor.
    + intros Mh Mw. rewrite Hlast. cbn [height width channels output_size].
      now rewrite !Z.max_r by assumption.
  - intros sizes E.
    destruct (Z.gtb_spec num_layers 0) as [Hn | Hn]; [| discriminate].
    inversion E as [Es]. clear E. subst sizes.
    split; [| split].
    + rewrite length_map, py_range_length. lia.
    + rewrite last_map_range by lia.
      replace (num_layers - 1 - (num_layers - 1)) with 0 by lia.
      now rewrite !resize_dim_last.
    + apply sorted_map_range. intros i Hi Hlt. cbn [fst snd].
      replace (num_layers - 1 - i) with (num_layers - 1 - (i + 1) + 1)
        by lia.
      split; apply resize_dim_grows; lia.
Qed.

End BuilderFacts.

Lemma generator_sizes_witness :
  last [Builders.Shape 14 14 128; Builders.Shape 28 28 1]
    (Builders.Shape 7 7 256)
  = Builders.Shape (Z.max 4 28) (Z.max 4 28) 1.
Proof.
  destruct (generator_sizes 28 28 1 4 128 3 ltac:(lia) ltac:(lia))
    as (_ & _ & H & _).
  exact (proj1 (proj2 (H (Builders.Shape 7 7 256)
                         [Builders.Shape 14 14 128; Builders.Shape 28 28 1]
                         eq_refl))).
Defined.

(** ** Sampled steps *)

Section SampleExtras.

Import Scheduler Loop LoopSpec Calls Examples.

Variable load : string -> option Z -> bool * Z.
Variables num_examples batch_size : Z.
Variable a : train_args.
Hypothesis num_batches_pos : 0 < num_examples / batch_size.






End SampleExtras.


(** ** Convolution stacks *)

Section ConvFacts.

Import Loop Builders.

Lemma conv_loop_from (lo hi dim : Z) (acc : list conv_layer) :
  lo <= hi ->
  fold_left conv_step (py_range lo hi) (dim, acc)
  = (dim * 2 ^ (hi - lo),
     acc ++ map (fun i => ConvLayer (dim * 2 ^ (i - lo)) (negb (i =? 0)))
              (py_range lo hi)).
Proof.
  intros H. remember (Z.to_nat (hi - lo)) as n eqn:En.
  revert lo dim acc H En.
  induction n as [| n IH]; intros lo dim acc H En.
  - assert (hi = lo) by lia. subst hi.
    rewrite py_range_empty by lia. cbn [fold_left map].
    rewrite Z.sub_diag, Z.pow_0_r, Z.mul_1_r, app_nil_r. reflexivity.
  - rewrite py_range_cons by lia. cbn [fold_left map conv_step].
    rewrite IH by lia.
    rewrite Z.sub_diag, Z.pow_0_r, Z.mul_1_r, <- app_assoc.
    cbn [app]. f_equal.
    + replace (hi - lo) with (hi - (lo + 1) + 1) by lia.
      rewrite Z.pow_add_r, Z.pow_1_r by lia. lia.
    + f_equal. f_equal. apply map_ext_in. intros i Hi.
      apply in_py_range in Hi. f_equal.
      replace (i - lo) with (i - (lo + 1) + 1) by lia.
      rewrite Z.pow_add_r, Z.pow_1_r by lia. lia.
Qed.

Lemma nth_error_map_range {A : Type} (f : Z -> A) (n i : Z) :
  0 <= i < n ->
  nth_error (map f (py_range 0 n)) (Z.to_nat i) = Some (f i).
Proof.
  intros H. unfold py_range. rewrite map_map.
  rewrite nth_error_map, nth_error_seq.
  destruct (Nat.ltb_spec (Z.to_nat i) (Z.to_nat (n - 0))) as [L | L];
    [| lia].
  cbn [option_map]. f_equal. f_equal. lia.
Qed.

Lemma conv_loop_layers (dim n : Z) :
  0 <= n ->
  conv_loop dim n
  = (dim * 2 ^ n,
     map (fun i => ConvLayer (dim * 2 ^ i) (negb (i =? 0)))
       (py_range 0 n)).
Proof.
  intros H. unfold conv_loop. rewrite conv_loop_from by lia.
  rewrite Z.sub_0_r. cbn [app]. f_equal. apply map_ext.
  intros i. now rewrite Z.sub_0_r.
Qed.

(** X14: the convolutions of [build_conv_discriminator] and of the
    first loop of [build_conv_resize_conv_generator].  Both fail their
    assertion exactly for [num_layers <= 0]; otherwise the discriminator
    has [num_layers - 1] of them and the generator [num_layers], layer
    [i] has [dim * 2 ^ i] filters, batch normalisation follows every
    layer but the first, and the generator's loop leaves
    [dim * 2 ^ num_layers]. *)
Theorem conv_filters_double (dim num_layers : Z) :
  (conv_discriminator_features dim num_layers = None <-> num_layers <= 0)
  /\ (forall features,
        conv_discriminator_features dim num_layers = Some features ->
        Z.of_nat (List.length features) = num_layers - 1
        /\ forall i, 0 <= i < num_layers - 1 ->
             nth_error features (Z.to_nat i)
             = Some (ConvLayer (dim * 2 ^ i) (negb (i =? 0))))
  /\ (conv_resize_conv_encoder dim num_layers = None <-> num_layers <= 0)
  /\ (forall dim' layers,
        conv_resize_conv_encoder dim num_layers = Some (dim', layers) ->
        dim' = dim * 2 ^ num_layers
        /\ Z.of_nat (List.length layers) = num_layers
        /\ forall i, 0 <= i < num_layers ->
             nth_error layers (Z.to_nat i)
             = Some (ConvLayer (dim * 2 ^ i) (negb (i =? 0)))).
Proof.
  unfold conv_discriminator_features, conv_resize_conv_encoder.
  destruct (Z.gtb_spec num_layers 0) as [Hn | Hn].
  - split; [split; [discriminate | lia] |].
    split; [| split; [split; [discriminate | lia] |]].
    + intros features E. inversion E as [Ef]. clear E.
      rewrite conv_loop_layers by lia. cbn [snd].
      split.
      * rewrite length_map, py_range_length. lia.
      * intros i Hi.
        exact (nth_error_map_range
                 (fun i => ConvLayer (dim * 2 ^ i) (negb (i =? 0)))
                 _ i Hi).
    + intros dim' layers E. rewrite conv_loop_layers in E by lia.
      inversion E as [[Ed El]]. clear E.
      split; [reflexivity | split].
      * rewrite length_map, py_range_length. lia.
      * intros i Hi.
        exact (nth_error_map_range
                 (fun i => ConvLayer (dim * 2 ^ i) (negb (i =? 0)))
                 _ i Hi).
  - split; [split; [intros _; lia | reflexivity] |].
    split; [intros ? E; discriminate |].
    split; [split; [intros _; lia | reflexivity] |].
    intros ? ? E. discriminate.
Qed.

End ConvFacts.
